(** * NeoMpcPlanner: plan windowing, lookahead selection and slow-down regime

    A shallow embedding of [neo_mpc_planner2/src/NeoMpcPlanner.cpp] (humble).
    C++ [double] values are IEEE-754 binary64 numbers, modelled by Rocq's
    primitive floats; messages are records; the controller object is a state
    record threaded through a small state/exception monad that also records
    the calls made to the external collaborators (tf, publishers, optimizer). *)

From Stdlib Require Uint63.
Import PrimInt63.
From Stdlib Require Import List String Ascii Bool ZArith Lia Floats.
Import ListNotations.

Set Warnings "-inexact-float".

Local Open Scope string_scope.
Local Open Scope list_scope.
Local Open Scope float_scope.

(** ** IEEE comparisons on [double]

    [<], [<=] and [==] of C++ are [PrimFloat.ltb], [PrimFloat.leb] and
    [PrimFloat.eqb]; every comparison with a NaN is false. *)
Module Double.

Definition gtb (a b : float) : bool := b <? a.
Definition geb (a b : float) : bool := b <=? a.

(** The specification-level comparison of two binary64 values. *)
Definition cmp (a b : float) : option comparison :=
  SFcompare (Prim2SF a) (Prim2SF b).

End Double.

(** ** Messages (geometry_msgs, nav_msgs, rcl_interfaces, neo_srvs2)

    Plain records; [eqb] is the generated [operator==], field by field, with
    IEEE [==] on the [double] fields. *)

Module Point.
Record t := mk { x : float; y : float; z : float }.
Definition default : t := mk 0 0 0.
Definition eqb (a b : t) : bool :=
  (x a =? x b) && (y a =? y b) && (z a =? z b).
End Point.

Module Quaternion.
Record t := mk { x : float; y : float; z : float; w : float }.
Definition default : t := mk 0 0 0 1.
Definition eqb (a b : t) : bool :=
  (x a =? x b) && (y a =? y b) && (z a =? z b) && (w a =? w b).
End Quaternion.

Module Pose.
Record t := mk { position : Point.t; orientation : Quaternion.t }.
Definition default : t := mk Point.default Quaternion.default.
Definition eqb (a b : t) : bool :=
  Point.eqb (position a) (position b) &&
  Quaternion.eqb (orientation a) (orientation b).
End Pose.

Module Header.
(** [stamp] is the time stamp in nanoseconds. *)
Record t := mk { stamp : Z; frame_id : string }.
Definition default : t := mk 0%Z EmptyString.
End Header.

Module PoseStamped.
Record t := mk { header : Header.t; pose : Pose.t }.
Definition default : t := mk Header.default Pose.default.
End PoseStamped.

Module PointStamped.
Record t := mk { header : Header.t; point : Point.t }.
End PointStamped.

Module Path.
Record t := mk { header : Header.t; poses : list PoseStamped.t }.
Definition default : t := mk Header.default [].
End Path.

Module Twist.
Record t := mk { linear : Point.t; angular : Point.t }.
End Twist.

Module TwistStamped.
Record t := mk { header : Header.t; twist : Twist.t }.
End TwistStamped.

(** The request of the [neo_srvs2::srv::Optimizer] service. *)
Module Request.
Record t := mk {
  current_vel : Twist.t;
  carrot_pose : PoseStamped.t;
  goal_pose : Pose.t;
  current_pose : PoseStamped.t;
  switch_opt : bool;
  control_interval : float
}.
End Request.

Module SetParametersResult.
Record t := mk { successful : bool; reason : string }.
Definition default : t := mk false EmptyString.
End SetParametersResult.

(** [rclcpp::Parameter]: a name and a typed value. *)
Module RclParameter.
Inductive ParameterType :=
| PARAMETER_NOT_SET | PARAMETER_BOOL | PARAMETER_INTEGER
| PARAMETER_DOUBLE | PARAMETER_STRING.
Inductive ParameterValue :=
| NotSet
| BoolValue (b : bool)
| IntegerValue (i : Z)
| DoubleValue (d : float)
| StringValue (s : string).
Record t := mk { get_name : string; get_value : ParameterValue }.
Definition get_type (p : t) : ParameterType :=
  match get_value p with
  | NotSet => PARAMETER_NOT_SET
  | BoolValue _ => PARAMETER_BOOL
  | IntegerValue _ => PARAMETER_INTEGER
  | DoubleValue _ => PARAMETER_DOUBLE
  | StringValue _ => PARAMETER_STRING
  end.
Definition type_eqb (a b : ParameterType) : bool :=
  match a, b with
  | PARAMETER_NOT_SET, PARAMETER_NOT_SET
  | PARAMETER_BOOL, PARAMETER_BOOL
  | PARAMETER_INTEGER, PARAMETER_INTEGER
  | PARAMETER_DOUBLE, PARAMETER_DOUBLE
  | PARAMETER_STRING, PARAMETER_STRING => true
  | _, _ => false
  end.
(** [as_double] is only called under the [PARAMETER_DOUBLE] test; on another
    type rclcpp throws, which is unreachable in the callback. *)
Definition as_double (p : t) : option float :=
  match get_value p with DoubleValue d => Some d | _ => None end.
End RclParameter.

(** ** The collaborators of the controller

    The cost map, tf, the footprint collision checker, the optimizer service
    and the math routines of tf2 and libm are outside this repository: they
    are fields of an environment, fixed for the duration of one call. *)
Record Env := {
  (** [costmap->getSizeInCellsX()], [getSizeInCellsY()]: unsigned ints. *)
  getSizeInCellsX : PrimInt63.int;
  getSizeInCellsY : PrimInt63.int;
  (** [costmap->getResolution()]. *)
  getResolution : float;
  (** [costmap_ros_->getBaseFrameID()]. *)
  getBaseFrameID : string;
  (** [tf_->transform(in, out, frame, tolerance)]: the transformed pose, or
      [None] when it throws [tf2::TransformException]. *)
  tf_transform : PoseStamped.t -> string -> option PoseStamped.t;
  (** [collision_checker_->footprintCostAtPose(x, y, theta, footprint)] for
      the robot footprint of the cost map. *)
  footprintCostAtPose : float -> float -> float -> float;
  (** [tf2::getYaw]. *)
  getYaw : Quaternion.t -> float;
  (** The yaw that [tf2::Matrix3x3(q).getRPY] computes. *)
  getRPY_yaw : Quaternion.t -> float;
  (** [std::hypot]. *)
  hypot : float -> float -> float;
  (** The optimizer service: the [output_vel] of its response, for a request
      that is answered. A request that is sent and never answered (the tick
      then stays in [result.get()]) has no outcome here: the statements below
      speak of the calls a tick makes and of the ticks that return or throw,
      never of an answer being given. *)
  optimizer : Request.t -> TwistStamped.t
}.

(** ** The controller object *)

Inductive Thread := ControlThread | ParameterThread.

Record NeoMpcPlanner := {
  global_plan_ : Path.t;
  goal_pose : Pose.t;
  slow_down_ : bool;
  closer_to_goal : bool;
  lookahead_dist_min_ : float;
  lookahead_dist_max_ : float;
  lookahead_dist_close_to_goal_ : float;
  control_frequency : float;
  plugin_name_ : string;
  (** [mutex_]: the thread that holds it, if any. *)
  mutex_ : option Thread
}.

Definition set_global_plan_ (v : Path.t) (s : NeoMpcPlanner) :=
  {| global_plan_ := v; goal_pose := goal_pose s; slow_down_ := slow_down_ s;
     closer_to_goal := closer_to_goal s;
     lookahead_dist_min_ := lookahead_dist_min_ s;
     lookahead_dist_max_ := lookahead_dist_max_ s;
     lookahead_dist_close_to_goal_ := lookahead_dist_close_to_goal_ s;
     control_frequency := control_frequency s;
     plugin_name_ := plugin_name_ s; mutex_ := mutex_ s |}.

Definition set_goal_pose (v : Pose.t) (s : NeoMpcPlanner) :=
  {| global_plan_ := global_plan_ s; goal_pose := v; slow_down_ := slow_down_ s;
     closer_to_goal := closer_to_goal s;
     lookahead_dist_min_ := lookahead_dist_min_ s;
     lookahead_dist_max_ := lookahead_dist_max_ s;
     lookahead_dist_close_to_goal_ := lookahead_dist_close_to_goal_ s;
     control_frequency := control_frequency s;
     plugin_name_ := plugin_name_ s; mutex_ := mutex_ s |}.

Definition set_slow_down_ (v : bool) (s : NeoMpcPlanner) :=
  {| global_plan_ := global_plan_ s; goal_pose := goal_pose s; slow_down_ := v;
     closer_to_goal := closer_to_goal s;
     lookahead_dist_min_ := lookahead_dist_min_ s;
     lookahead_dist_max_ := lookahead_dist_max_ s;
     lookahead_dist_close_to_goal_ := lookahead_dist_close_to_goal_ s;
     control_frequency := control_frequency s;
     plugin_name_ := plugin_name_ s; mutex_ := mutex_ s |}.

Definition set_closer_to_goal (v : bool) (s : NeoMpcPlanner) :=
  {| global_plan_ := global_plan_ s; goal_pose := goal_pose s;
     slow_down_ := slow_down_ s; closer_to_goal := v;
     lookahead_dist_min_ := lookahead_dist_min_ s;
     lookahead_dist_max_ := lookahead_dist_max_ s;
     lookahead_dist_close_to_goal_ := lookahead_dist_close_to_goal_ s;
     control_frequency := control_frequency s;
     plugin_name_ := plugin_name_ s; mutex_ := mutex_ s |}.

Definition set_lookahead_dist_min_ (v : float) (s : NeoMpcPlanner) :=
  {| global_plan_ := global_plan_ s; goal_pose := goal_pose s;
     slow_down_ := slow_down_ s; closer_to_goal := closer_to_goal s;
     lookahead_dist_min_ := v;
     lookahead_dist_max_ := lookahead_dist_max_ s;
     lookahead_dist_close_to_goal_ := lookahead_dist_close_to_goal_ s;
     control_frequency := control_frequency s;
     plugin_name_ := plugin_name_ s; mutex_ := mutex_ s |}.

Definition set_lookahead_dist_max_ (v : float) (s : NeoMpcPlanner) :=
  {| global_plan_ := global_plan_ s; goal_pose := goal_pose s;
     slow_down_ := slow_down_ s; closer_to_goal := closer_to_goal s;
     lookahead_dist_min_ := lookahead_dist_min_ s;
     lookahead_dist_max_ := v;
     lookahead_dist_close_to_goal_ := lookahead_dist_close_to_goal_ s;
     control_frequency := control_frequency s;
     plugin_name_ := plugin_name_ s; mutex_ := mutex_ s |}.

Definition set_lookahead_dist_close_to_goal_ (v : float) (s : NeoMpcPlanner) :=
  {| global_plan_ := global_plan_ s; goal_pose := goal_pose s;
     slow_down_ := slow_down_ s; closer_to_goal := closer_to_goal s;
     lookahead_dist_min_ := lookahead_dist_min_ s;
     lookahead_dist_max_ := lookahead_dist_max_ s;
     lookahead_dist_close_to_goal_ := v;
     control_frequency := control_frequency s;
     plugin_name_ := plugin_name_ s; mutex_ := mutex_ s |}.

Definition set_mutex_ (v : option Thread) (s : NeoMpcPlanner) :=
  {| global_plan_ := global_plan_ s; goal_pose := goal_pose s;
     slow_down_ := slow_down_ s; closer_to_goal := closer_to_goal s;
     lookahead_dist_min_ := lookahead_dist_min_ s;
     lookahead_dist_max_ := lookahead_dist_max_ s;
     lookahead_dist_close_to_goal_ := lookahead_dist_close_to_goal_ s;
     control_frequency := control_frequency s;
     plugin_name_ := plugin_name_ s; mutex_ := v |}.

(** ** Exceptions, observable calls, and the monad of member functions *)

(** The four [nav2_core::PlannerException]s the file throws, named after the
    error kinds of the specification; [what] is the message thrown. *)
Inductive PlannerException :=
| EmptyPlanError
| TransformUnavailableError
| EmptyWindowError
| CollisionDetectedError.

Definition what (e : PlannerException) : string :=
  match e with
  | EmptyPlanError => "Received plan with zero length"
  | TransformUnavailableError =>
      "Unable to transform robot pose into global plan's frame"
  | EmptyWindowError => "Resulting plan has 0 poses in it."
  | CollisionDetectedError => "MPC detected collision!"
  end.

(** Calls that leave the controller. *)
Inductive Event :=
| TfTransform (in_pose : PoseStamped.t) (frame : string)
| LogError (msg : string)
| LogWarn (msg : string)
| PublishPath (p : Path.t)
| PublishCarrot (p : PointStamped.t)
| FootprintCost (x y theta : float)
| OptimizerRequest (r : Request.t).

(** How a call ends: it returns, it throws, it waits for the mutex, or it
    runs into undefined behaviour (an out-of-range element access). *)
Inductive Outcome (A : Type) :=
| Returns (a : A)
| Throws (e : PlannerException)
| Blocks
| Undefined.
Arguments Returns {A} a.
Arguments Throws {A} e.
Arguments Blocks {A}.
Arguments Undefined {A}.

Definition M (A : Type) : Type :=
  NeoMpcPlanner -> Outcome A * NeoMpcPlanner * list Event.

Definition ret {A} (a : A) : M A := fun s => (Returns a, s, []).

Definition bind {A B} (m : M A) (k : A -> M B) : M B :=
  fun s =>
    match m s with
    | (Returns a, s1, ev1) =>
        match k a s1 with (o, s2, ev2) => (o, s2, ev1 ++ ev2) end
    | (Throws e, s1, ev1) => (Throws e, s1, ev1)
    | (Blocks, s1, ev1) => (Blocks, s1, ev1)
    | (Undefined, s1, ev1) => (Undefined, s1, ev1)
    end.

Definition throw {A} (e : PlannerException) : M A := fun s => (Throws e, s, []).
Definition undefined {A} : M A := fun s => (Undefined, s, []).
Definition get : M NeoMpcPlanner := fun s => (Returns s, s, []).
Definition modify (f : NeoMpcPlanner -> NeoMpcPlanner) : M unit :=
  fun s => (Returns tt, f s, []).
Definition emit (e : Event) : M unit := fun s => (Returns tt, s, [e]).

Declare Scope planner_scope.
Delimit Scope planner_scope with planner.
Notation "x <- m ;; k" := (bind m (fun x => k))
  (at level 61, m at next level, right associativity) : planner_scope.
Notation "m ;; k" := (bind m (fun _ => k))
  (at level 61, right associativity) : planner_scope.
Local Open Scope planner_scope.

(** [std::lock_guard<std::mutex>] around a body run by thread [th]: the
    constructor waits while the mutex is held (by whichever thread); the
    destructor releases it on return and on throw alike. *)
Definition lock_guard {A} (th : Thread) (body : M A) : M A :=
  fun s =>
    match mutex_ s with
    | Some _ => (Blocks, s, [])
    | None =>
        match body (set_mutex_ (Some th) s) with
        | (o, s1, ev) => (o, set_mutex_ None s1, ev)
        end
    end.

(** [mutex_.try_lock()]: false when the mutex is already locked. For a mutex
    locked by the calling thread itself the C++ standard leaves the call
    undefined; glibc's [pthread_mutex_trylock] answers [EBUSY], i.e. false. *)
Definition try_lock (th : Thread) : M bool :=
  fun s =>
    match mutex_ s with
    | Some _ => (Returns false, s, [])
    | None => (Returns true, set_mutex_ (Some th) s, [])
    end.

Definition unlock : M unit := modify (set_mutex_ None).

(** ** Library routines the file calls

    Iterators into a [std::vector] are indices into the list; [end()] is its
    length. *)

(** [std::max] on the two unsigned map sizes. *)
Definition std_max (a b : PrimInt63.int) : PrimInt63.int :=
  if PrimInt63.ltb a b then b else a.

(** [std::find_if(first, v.end(), pred)]. *)
Fixpoint find_if_loop {A} (pred : A -> bool) (l : list A) (it : nat) : nat :=
  match l with
  | [] => it
  | a :: rest => if pred a then it else find_if_loop pred rest (S it)
  end.

Definition find_if {A} (v : list A) (first : nat) (pred : A -> bool) : nat :=
  find_if_loop pred (skipn first v) first.

(** [nav2_util::geometry_utils::min_by(v.begin(), v.end(), getCompareVal)]:
    the first value is the lowest so far, and a later element replaces it
    only when its value is strictly lower. *)
Fixpoint min_by_loop {A} (getCompareVal : A -> float) (l : list A)
    (it : nat) (lowest : float) (lowest_it : nat) : nat :=
  match l with
  | [] => lowest_it
  | a :: rest =>
      let comp := getCompareVal a in
      if comp <? lowest
      then min_by_loop getCompareVal rest (S it) comp it
      else min_by_loop getCompareVal rest (S it) lowest lowest_it
  end.

Definition min_by {A} (v : list A) (getCompareVal : A -> float) : nat :=
  match v with
  | [] => 0
  | a :: rest => min_by_loop getCompareVal rest 1 (getCompareVal a) 0
  end.

(** The elements of [v] in the iterator range [[first, last)]. *)
Definition range {A} (v : list A) (first last : nat) : list A :=
  firstn (last - first) (skipn first v).

(** [v.erase(v.begin(), it)]. *)
Definition erase_prefix {A} (v : list A) (it : nat) : list A := skipn it v.

(** [v[v.size() - 1]] on a vector that is not empty. *)
Definition back {A} (v : list A) (d : A) : A := nth (List.length v - 1) v d.

(** [std::transform] with a member-function body. *)
Fixpoint mapM {A B} (f : A -> M B) (l : list A) : M (list B) :=
  match l with
  | [] => ret []
  | a :: rest => b <- f a ;; bs <- mapM f rest ;; ret (b :: bs)
  end.

(** [std::string::find(c) != npos]. *)
Fixpoint contains_char (c : ascii) (s : string) : bool :=
  match s with
  | EmptyString => false
  | String d rest => if Ascii.eqb d c then true else contains_char c rest
  end.

(** ** The member functions of [NeoMpcPlanner] *)

(** The warning and failure reason of [dynamicParametersCallback]. *)
Definition busy_message : string :=
  "Unable to dynamically change Parameters while the controller is currently running".

(** The names under which [configure] declares and reads the three lookahead
    parameters of the plugin [name]. *)
Definition declared_parameter_names (name : string) : list string :=
  [(name ++ ".lookahead_dist_min")%string;
   (name ++ ".lookahead_dist_max")%string;
   (name ++ ".lookahead_dist_close_to_goal")%string].

Section Planner.

Variable env : Env.

(** [nav2_util::geometry_utils::euclidean_distance] on two stamped poses
    (planar: [hypot] of the x and y differences). *)
Definition euclidean_distance (pos1 pos2 : PoseStamped.t) : float :=
  let p1 := Pose.position (PoseStamped.pose pos1) in
  let p2 := Pose.position (PoseStamped.pose pos2) in
  let dx := Point.x p1 - Point.x p2 in
  let dy := Point.y p1 - Point.y p2 in
  hypot env dx dy.

Definition createYawFromQuat (orientation : Quaternion.t) : float :=
  getRPY_yaw env orientation.

(** [transformPose(frame, in_pose, out_pose)]: the returned flag and the
    value of the out-parameter afterwards. *)
Definition transformPose (frame : string) (in_pose out_pose : PoseStamped.t)
  : M (bool * PoseStamped.t) :=
  if String.eqb (Header.frame_id (PoseStamped.header in_pose)) frame
  then ret (true, in_pose)
  else
    emit (TfTransform in_pose frame) ;;
    match tf_transform env in_pose frame with
    | Some out =>
        ret (true,
             PoseStamped.mk
               (Header.mk (Header.stamp (PoseStamped.header out)) frame)
               (PoseStamped.pose out))
    | None =>
        emit (LogError "Exception in transformPose") ;;
        ret (false, out_pose)
    end.

(** The lambda [transformGlobalPoseToLocal] of [transformGlobalPlan]; the
    flag of [transformPose] is dropped there. *)
Definition transformGlobalPoseToLocal (plan_header robot_header : Header.t)
    (global_plan_pose : PoseStamped.t) : M PoseStamped.t :=
  let stamped_pose :=
    PoseStamped.mk
      (Header.mk (Header.stamp robot_header) (Header.frame_id plan_header))
      (PoseStamped.pose global_plan_pose) in
  r <- transformPose (getBaseFrameID env) stamped_pose PoseStamped.default ;;
  ret (snd r).

Definition max_transform_dist : float :=
  let max_costmap_dim :=
    of_uint63 (std_max (getSizeInCellsX env) (getSizeInCellsY env)) in
  max_costmap_dim * getResolution env / 2.

(** The predicate of the [find_if] in [transformGlobalPlan]. *)
Definition outside_costmap (robot_pose global_plan_pose : PoseStamped.t)
  : bool :=
  Double.gtb (euclidean_distance robot_pose global_plan_pose)
             max_transform_dist.

Definition transformGlobalPlan (pose : PoseStamped.t) : M Path.t :=
  this <- get ;;
  let plan := global_plan_ this in
  match Path.poses plan with
  | [] => throw EmptyPlanError
  | _ :: _ =>
    r <- transformPose (Header.frame_id (Path.header plan)) pose
           PoseStamped.default ;;
    let robot_pose := snd r in
    if negb (fst r) then throw TransformUnavailableError else
    let transformation_begin :=
      min_by (Path.poses plan) (fun ps => euclidean_distance robot_pose ps) in
    let final_pose :=
      PoseStamped.mk (Path.header plan)
        (PoseStamped.pose (back (Path.poses plan) PoseStamped.default)) in
    (if euclidean_distance robot_pose final_pose
          <=? lookahead_dist_close_to_goal_ this
     then modify (set_closer_to_goal true)
     else modify (set_closer_to_goal false)) ;;
    let transformation_end :=
      find_if (Path.poses plan) transformation_begin
        (outside_costmap robot_pose) in
    transformed_poses <-
      mapM (transformGlobalPoseToLocal (Path.header plan)
              (PoseStamped.header robot_pose))
           (range (Path.poses plan) transformation_begin transformation_end) ;;
    let transformed_plan :=
      Path.mk
        (Header.mk (Header.stamp (PoseStamped.header robot_pose))
                   (getBaseFrameID env))
        transformed_poses in
    modify (fun s =>
      set_global_plan_
        (Path.mk (Path.header (global_plan_ s))
           (erase_prefix (Path.poses (global_plan_ s)) transformation_begin))
        s) ;;
    emit (PublishPath transformed_plan) ;;
    match transformed_poses with
    | [] => throw EmptyWindowError
    | _ :: _ => ret transformed_plan
    end
  end.

Definition getLookAheadDistance (this : NeoMpcPlanner) (speed : Twist.t)
  : float :=
  let lookahead_dist := lookahead_dist_min_ this in
  if negb (slow_down_ this) || closer_to_goal this
  then
    let lookahead_dist := lookahead_dist_max_ this in
    if closer_to_goal this
    then lookahead_dist_close_to_goal_ this
    else lookahead_dist
  else lookahead_dist.

(** The predicate of the [find_if] in [getLookAheadPoint]. *)
Definition far_enough (lookahead_dist : float) (ps : PoseStamped.t) : bool :=
  let p := Pose.position (PoseStamped.pose ps) in
  Double.geb (hypot env (Point.x p) (Point.y p)) lookahead_dist.

(** [getLookAheadPoint]: [None] is the dereference of [std::prev(end())] on
    an empty path, which is undefined in C++. *)
Definition getLookAheadPoint (lookahead_dist : float)
    (transformed_plan : Path.t) : option PoseStamped.t :=
  let poses := Path.poses transformed_plan in
  let goal_pose_it := find_if poses 0 (far_enough lookahead_dist) in
  let goal_pose_it :=
    if Nat.eqb goal_pose_it (List.length poses)
    then (List.length poses - 1)%nat
    else goal_pose_it in
  if Nat.eqb (List.length poses) 0 then None else nth_error poses goal_pose_it.

Definition createCarrotMsg (carrot_pose : PoseStamped.t) : PointStamped.t :=
  let p := Pose.position (PoseStamped.pose carrot_pose) in
  PointStamped.mk (PoseStamped.header carrot_pose)
    (Point.mk (Point.x p) (Point.y p) 0.01).

Definition defined {A} (o : option A) : M A :=
  match o with Some a => ret a | None => undefined end.

(** The body of [computeVelocityCommands], run under the lock. *)
Definition computeVelocityCommands_body (position : PoseStamped.t)
    (speed : Twist.t) : M TwistStamped.t :=
  transformed_plan <- transformGlobalPlan position ;;
  this <- get ;;
  let lookahead_dist := getLookAheadDistance this speed in
  carrot_pose <- defined (getLookAheadPoint lookahead_dist transformed_plan) ;;
  let pos := Pose.position (PoseStamped.pose position) in
  let theta := getYaw env (Pose.orientation (PoseStamped.pose position)) in
  emit (FootprintCost (Point.x pos) (Point.y pos) theta) ;;
  let footprint_cost :=
    footprintCostAtPose env (Point.x pos) (Point.y pos) theta in
  let carrot_yaw :=
    abs (createYawFromQuat (Pose.orientation (PoseStamped.pose carrot_pose))) in
  (if carrot_yaw <? 1.0
   then
     modify (set_slow_down_ false) ;;
     check_pose_up <-
       defined (getLookAheadPoint lookahead_dist transformed_plan) ;;
     if Double.gtb
          (abs (createYawFromQuat
                  (Pose.orientation (PoseStamped.pose check_pose_up)))) 1.0
        && Double.gtb footprint_cost 200
     then modify (set_slow_down_ true)
     else ret tt
   else if Double.geb carrot_yaw 1.0 && Double.gtb footprint_cost 200
   then modify (set_slow_down_ true)
   else modify (set_slow_down_ false)) ;;
  if footprint_cost =? 255 then throw CollisionDetectedError else
  emit (PublishCarrot (createCarrotMsg carrot_pose)) ;;
  this <- get ;;
  let request :=
    Request.mk speed carrot_pose (goal_pose this) position
      (closer_to_goal this) (1.0 / control_frequency this) in
  emit (OptimizerRequest request) ;;
  ret (optimizer env request).

Definition computeVelocityCommands (position : PoseStamped.t)
    (speed : Twist.t) : M TwistStamped.t :=
  lock_guard ControlThread (computeVelocityCommands_body position speed).

(** The [if]/[else if]/[else] of [computeVelocityCommands] that writes
    [slow_down_], on its own: the statement between the footprint query and
    the collision test, with the locals it reads as arguments. *)
Definition update_slow_down_ (lookahead_dist : float)
    (transformed_plan : Path.t) (carrot_pose : PoseStamped.t)
    (footprint_cost : float) : M unit :=
  if abs (createYawFromQuat (Pose.orientation (PoseStamped.pose carrot_pose)))
       <? 1.0
  then
    modify (set_slow_down_ false) ;;
    check_pose_up <-
      defined (getLookAheadPoint lookahead_dist transformed_plan) ;;
    if Double.gtb
         (abs (createYawFromQuat
                 (Pose.orientation (PoseStamped.pose check_pose_up)))) 1.0
       && Double.gtb footprint_cost 200
    then modify (set_slow_down_ true)
    else ret tt
  else if Double.geb
            (abs (createYawFromQuat
                    (Pose.orientation (PoseStamped.pose carrot_pose)))) 1.0
          && Double.gtb footprint_cost 200
  then modify (set_slow_down_ true)
  else modify (set_slow_down_ false).

(** [setPlan]: [plan.poses[plan.poses.size() - 1]] on an empty plan is an
    out-of-range access. *)
Definition setPlan (plan : Path.t) : M unit :=
  modify (set_global_plan_ plan) ;;
  match Path.poses plan with
  | [] => undefined
  | _ :: _ =>
      let final := PoseStamped.pose (back (Path.poses plan) PoseStamped.default) in
      this <- get ;;
      (if negb (Pose.eqb (goal_pose this) final)
       then modify (set_slow_down_ true)
       else ret tt) ;;
      modify (set_goal_pose final)
  end.

(** The loop of [dynamicParametersCallback]: [Some result] is the early
    [return result] of the loop body, [None] is the loop running to its end. *)
Fixpoint dynamicParameters_loop (parameters : list RclParameter.t)
  : M (option SetParametersResult.t) :=
  match parameters with
  | [] => ret None
  | parameter :: rest =>
      let type := RclParameter.get_type parameter in
      let name := RclParameter.get_name parameter in
      if contains_char "."%char name then dynamicParameters_loop rest else
      locked <- try_lock ParameterThread ;;
      if negb locked then
        emit (LogWarn busy_message) ;;
        ret (Some (SetParametersResult.mk false busy_message))
      else
        this <- get ;;
        (if RclParameter.type_eqb type RclParameter.PARAMETER_DOUBLE then
           match RclParameter.as_double parameter with
           | None => ret tt
           | Some d =>
             if String.eqb name (plugin_name_ this ++ "lookahead_dist_min")%string
             then modify (set_lookahead_dist_min_ d)
             else if String.eqb name (plugin_name_ this ++ "lookahead_dist_max")%string
             then modify (set_lookahead_dist_max_ d)
             else if String.eqb name
                       (plugin_name_ this ++ "lookahead_dist_close_to_goal")%string
             then modify (set_lookahead_dist_close_to_goal_ d)
             else ret tt
           end
         else ret tt) ;;
        unlock ;;
        dynamicParameters_loop rest
  end.

Definition dynamicParametersCallback (parameters : list RclParameter.t)
  : M SetParametersResult.t :=
  lock_guard ParameterThread
    (r <- dynamicParameters_loop parameters ;;
     match r with
     | Some result => ret result
     | None => ret (SetParametersResult.mk true EmptyString)
     end).

End Planner.

(** ** Vocabulary of the statements *)

(** The longest prefix on which [pred] is false. *)
Fixpoint before_first {A} (pred : A -> bool) (l : list A) : list A :=
  match l with
  | [] => []
  | a :: rest => if pred a then [] else a :: before_first pred rest
  end.

(** [c], at index [i] of [v], has the least value of [v], and every element
    before it has a strictly greater value. *)
Definition first_minimum {A} (f : A -> float) (v : list A) (i : nat) (c : A)
  : Prop :=
  nth_error v i = Some c /\
  (forall q, In q v -> (f c <=? f q) = true) /\
  (forall j q, (j < i)%nat -> nth_error v j = Some q -> (f c <? f q) = true).

(** The optimizer requests among the calls made. *)
Definition optimizer_calls (ev : list Event) : list Request.t :=
  flat_map (fun e => match e with OptimizerRequest r => [r] | _ => [] end) ev.

(** The velocity commands are the values returned by
    [computeVelocityCommands]. *)
Definition produced_command {A} (o : Outcome A) : option A :=
  match o with Returns a => Some a | _ => None end.

(** The calls [transformGlobalPlan] can make: tf lookups, error logs and the
    publication of the window. *)
Definition window_event (e : Event) : Prop :=
  match e with
  | TfTransform _ _ | LogError _ | PublishPath _ => True
  | _ => False
  end.

(** The regime flag a tick leaves, from the absolute heading of the carrot
    and the footprint cost. *)
Definition slow_down_after (carrot_yaw footprint_cost : float) : bool :=
  if carrot_yaw <? 1.0 then false
  else Double.geb carrot_yaw 1.0 && Double.gtb footprint_cost 200.

(** A parameter is namespaced when its name contains the delimiter ['.']. *)
Definition namespaced (p : RclParameter.t) : bool :=
  contains_char "."%char (RclParameter.get_name p).

Section Vocabulary.

Variable env : Env.

(** What [transformPose] computes: the pose expressed in [frame], if tf
    provides it. *)
Definition pose_in_frame (frame : string) (in_pose : PoseStamped.t)
  : option PoseStamped.t :=
  if String.eqb (Header.frame_id (PoseStamped.header in_pose)) frame
  then Some in_pose
  else
    match tf_transform env in_pose frame with
    | Some out =>
        Some (PoseStamped.mk
                (Header.mk (Header.stamp (PoseStamped.header out)) frame)
                (PoseStamped.pose out))
    | None => None
    end.

(** A plan pose re-expressed in the base frame of the robot, as the lambda
    of [transformGlobalPlan] returns it: the default pose when tf fails. *)
Definition local_pose (plan_header robot_header : Header.t)
    (global_plan_pose : PoseStamped.t) : PoseStamped.t :=
  let stamped_pose :=
    PoseStamped.mk
      (Header.mk (Header.stamp robot_header) (Header.frame_id plan_header))
      (PoseStamped.pose global_plan_pose) in
  match pose_in_frame (getBaseFrameID env) stamped_pose with
  | Some p => p
  | None => PoseStamped.default
  end.

(** The pieces of one run of [transformGlobalPlan] on a plan [poses] seen
    from [robot_pose] (the robot in the frame of the plan). *)
Definition closest_index (poses : list PoseStamped.t)
    (robot_pose : PoseStamped.t) : nat :=
  min_by poses (fun ps => euclidean_distance env robot_pose ps).

Definition near_goal (s : NeoMpcPlanner) (robot_pose : PoseStamped.t) : bool :=
  let plan := global_plan_ s in
  euclidean_distance env robot_pose
    (PoseStamped.mk (Path.header plan)
       (PoseStamped.pose (last (Path.poses plan) PoseStamped.default)))
  <=? lookahead_dist_close_to_goal_ s.

Definition in_range_run (poses : list PoseStamped.t)
    (robot_pose : PoseStamped.t) : list PoseStamped.t :=
  before_first (outside_costmap env robot_pose)
    (skipn (closest_index poses robot_pose) poses).

Definition window (s : NeoMpcPlanner) (robot_pose : PoseStamped.t) : Path.t :=
  let plan := global_plan_ s in
  Path.mk
    (Header.mk (Header.stamp (PoseStamped.header robot_pose))
               (getBaseFrameID env))
    (map (local_pose (Path.header plan) (PoseStamped.header robot_pose))
         (in_range_run (Path.poses plan) robot_pose)).

Definition trimmed (s : NeoMpcPlanner) (robot_pose : PoseStamped.t)
  : NeoMpcPlanner :=
  let plan := global_plan_ s in
  set_global_plan_
    (Path.mk (Path.header plan)
       (skipn (closest_index (Path.poses plan) robot_pose) (Path.poses plan)))
    (set_closer_to_goal (near_goal s robot_pose) s).

(** The stored goal is the final pose of the stored plan, as [setPlan]
    leaves them. *)
Definition goal_is_final (s : NeoMpcPlanner) : Prop :=
  goal_pose s =
    PoseStamped.pose (last (Path.poses (global_plan_ s)) PoseStamped.default).

(** The calls one [transformPose] makes: none on the identity path, one tf
    lookup otherwise, followed by an error log when the lookup throws. *)
Definition transformPose_trace (frame : string) (in_pose : PoseStamped.t)
  : list Event :=
  if String.eqb (Header.frame_id (PoseStamped.header in_pose)) frame
  then []
  else
    TfTransform in_pose frame ::
    match tf_transform env in_pose frame with
    | Some _ => []
    | None => [LogError "Exception in transformPose"]
    end.

(** The pose the lambda of [transformGlobalPlan] hands to [transformPose]. *)
Definition stamped_plan_pose (plan_header robot_header : Header.t)
    (global_plan_pose : PoseStamped.t) : PoseStamped.t :=
  PoseStamped.mk
    (Header.mk (Header.stamp robot_header) (Header.frame_id plan_header))
    (PoseStamped.pose global_plan_pose).

(** The calls of one run of [transformGlobalPlan] that gets past the
    transform of the robot pose: that transform, one transform per pose of
    the window, and the publication of the window. *)
Definition window_trace (s : NeoMpcPlanner) (pose robot_pose : PoseStamped.t)
  : list Event :=
  let plan := global_plan_ s in
  transformPose_trace (Header.frame_id (Path.header plan)) pose ++
  flat_map
    (fun p =>
       transformPose_trace (getBaseFrameID env)
         (stamped_plan_pose (Path.header plan)
            (PoseStamped.header robot_pose) p))
    (in_range_run (Path.poses plan) robot_pose) ++
  [PublishPath (window s robot_pose)].

(** The iterator [goal_pose_it] that [getLookAheadPoint] dereferences. *)
Definition carrot_index (lookahead_dist : float) (transformed_plan : Path.t)
  : nat :=
  let poses := Path.poses transformed_plan in
  let goal_pose_it := find_if poses 0 (far_enough env lookahead_dist) in
  if Nat.eqb goal_pose_it (List.length poses)
  then (List.length poses - 1)%nat
  else goal_pose_it.

End Vocabulary.

(** A call has ended when it has returned or thrown. *)
Definition ended {A : Type} (o : Outcome A) : bool :=
  match o with
  | Returns _ | Throws _ => true
  | Blocks | Undefined => false
  end.

(** The controller after a sequence of ticks, each starting from the state
    the previous one left once it has ended; every tick has its own
    environment (the cost map, tf and the optimizer change between ticks),
    pose and speed. There is no state after a tick that does not end. *)
Fixpoint run_ticks (inputs : list (Env * PoseStamped.t * Twist.t))
    (s : NeoMpcPlanner) : option NeoMpcPlanner :=
  match inputs with
  | [] => Some s
  | (env, position, speed) :: rest =>
      let '(outcome, s', _) := computeVelocityCommands env position speed s in
      if ended outcome then run_ticks rest s' else None
  end.

(** ** Concrete environments and inputs used for evaluation *)

Module Demo.

Definition pose_at (frame : string) (x y : float) (q : Quaternion.t)
  : PoseStamped.t :=
  PoseStamped.mk (Header.mk 0%Z frame) (Pose.mk (Point.mk x y 0) q).

(** Two unit quaternions about the z axis, by 0.5 rad and by 1.2 rad. *)
Definition q_half : Quaternion.t :=
  Quaternion.mk 0 0 0.24740395925452294 0.9689124217106447.
Definition q_steep : Quaternion.t :=
  Quaternion.mk 0 0 0.5646424733950354 0.8253356149096783.

(** An environment with a 60 x 40 cell map at 0.05 m per cell (so that
    [max_transform_dist] is 1.5 m), the robot standing at the origin of the
    map frame (tf between the two frames is the identity), a footprint cost
    fixed to [cost], tf2 reporting 0.5 rad and 1.2 rad for [q_half] and
    [q_steep] (0 for the identity), and [hypot] computed in binary64. *)
Definition env (cost : float) : Env :=
  {| getSizeInCellsX := 60%uint63;
     getSizeInCellsY := 40%uint63;
     getResolution := 0.05;
     getBaseFrameID := "base_link";
     tf_transform := fun p _ => Some p;
     footprintCostAtPose := fun _ _ _ => cost;
     getYaw := fun q =>
       if Quaternion.eqb q q_half then 0.5
       else if Quaternion.eqb q q_steep then 1.2 else 0;
     getRPY_yaw := fun q =>
       if Quaternion.eqb q q_half then 0.5
       else if Quaternion.eqb q q_steep then 1.2 else 0;
     hypot := fun x y => sqrt (x * x + y * y);
     optimizer := fun r =>
       TwistStamped.mk (PoseStamped.header (Request.current_pose r))
         (Request.current_vel r) |}.

(** The same environment with tf unable to relate the frames. *)
Definition env_no_tf (cost : float) : Env :=
  {| getSizeInCellsX := getSizeInCellsX (env cost);
     getSizeInCellsY := getSizeInCellsY (env cost);
     getResolution := getResolution (env cost);
     getBaseFrameID := getBaseFrameID (env cost);
     tf_transform := fun _ _ => None;
     footprintCostAtPose := footprintCostAtPose (env cost);
     getYaw := getYaw (env cost);
     getRPY_yaw := getRPY_yaw (env cost);
     hypot := hypot (env cost);
     optimizer := optimizer (env cost) |}.

(** Poses of a local path, in the base frame. *)
Definition P0 := pose_at "base_link" 0 0 Quaternion.default.
Definition P1 := pose_at "base_link" 1 0 Quaternion.default.
Definition P2 := pose_at "base_link" 2 0 Quaternion.default.

Definition path (poses : list PoseStamped.t) : Path.t :=
  Path.mk (Header.mk 0%Z "base_link") poses.

(** Poses of a global plan, in the map frame. *)
Definition G (x y : float) := pose_at "map" x y Quaternion.default.

(** The robot at the origin of the map, and its velocity. *)
Definition robot : PoseStamped.t :=
  PoseStamped.mk (Header.mk 7%Z "map")
    (Pose.mk (Point.mk 0 0 0) Quaternion.default).
Definition robot_odom : PoseStamped.t :=
  PoseStamped.mk (Header.mk 7%Z "odom")
    (Pose.mk (Point.mk 0 0 0) Quaternion.default).
Definition speed : Twist.t := Twist.mk (Point.mk 0 0 0) (Point.mk 0 0 0).

(** A controller holding the plan [poses] in the map frame, with lookahead
    distances 0.5 (min), 1.0 (max) and 0.3 (close to goal). *)
Definition planner (poses : list PoseStamped.t) (slow : bool)
    (mutex : option Thread) : NeoMpcPlanner :=
  {| global_plan_ := Path.mk (Header.mk 0%Z "map") poses;
     goal_pose := PoseStamped.pose (last poses PoseStamped.default);
     slow_down_ := slow;
     closer_to_goal := false;
     lookahead_dist_min_ := 0.5;
     lookahead_dist_max_ := 1.0;
     lookahead_dist_close_to_goal_ := 0.3;
     control_frequency := 20;
     plugin_name_ := "FollowPath";
     mutex_ := mutex |}.

End Demo.

(** A plan of four poses along the x axis of the map; the robot stands at the
    origin, 0.2 m from the second pose; the last pose is 2 m away, beyond
    [max_transform_dist = 1.5]. *)
Definition plan_along_x : list PoseStamped.t :=
  [Demo.G (-1) 0; Demo.G 0.2 0; Demo.G 1 0; Demo.G 2 0].

(** A plan that turns: heading 0 at the origin, 0.5 rad at 0.6 m and 1.2 rad
    at 1.2 m. *)
Definition plan_turning : list PoseStamped.t :=
  [Demo.pose_at "map" 0 0 Quaternion.default;
   Demo.pose_at "map" 0.6 0 Demo.q_half;
   Demo.pose_at "map" 1.2 0 Demo.q_steep].

(** The window [transformGlobalPlan] makes of [plan_turning]. *)
Definition window_turning : Path.t :=
  window (Demo.env 201) (Demo.planner plan_turning true None) Demo.robot.

(** The parameters as [configure] declares them for the plugin "FollowPath",
    with new values. *)
Definition declared_batch : list RclParameter.t :=
  [RclParameter.mk "FollowPath.lookahead_dist_min" (RclParameter.DoubleValue 0.8);
   RclParameter.mk "FollowPath.lookahead_dist_max" (RclParameter.DoubleValue 2.0);
   RclParameter.mk "FollowPath.lookahead_dist_close_to_goal"
     (RclParameter.DoubleValue 0.1)].

(** The robot with a position that is not a number. *)
Definition robot_nan : PoseStamped.t :=
  PoseStamped.mk (Header.mk 7%Z "map")
    (Pose.mk (Point.mk nan 0 0) Quaternion.default).

(** The robot pose given in the base frame, and a controller whose plan is
    in the base frame too. *)
Definition robot_base : PoseStamped.t :=
  PoseStamped.mk (Header.mk 7%Z "base_link")
    (Pose.mk (Point.mk 0 0 0) Quaternion.default).
Definition planner_in_base (poses : list PoseStamped.t) : NeoMpcPlanner :=
  set_global_plan_ (Demo.path poses) (Demo.planner [] false None).

(** ** Facts on IEEE comparisons *)

Module DoubleFacts.

Ltac sf_split :=
  repeat match goal with
  | |- context [Z.compare ?a ?b] => destruct (Z.compare_spec a b)
  | |- context [Pos.compare ?a ?b] => destruct (Pos.compare_spec a b)
  | H : context [Z.compare ?a ?b] |- _ => destruct (Z.compare_spec a b)
  | H : context [Pos.compare ?a ?b] |- _ => destruct (Pos.compare_spec a b)
  end.

Ltac sf_crush :=
  cbn [SFcompare CompOpp option_map] in *;
  try change (Pos.compare_cont Eq) with Pos.compare in *;
  intros; try discriminate; try reflexivity;
  sf_split; subst; cbn [CompOpp] in *;
  try discriminate; try reflexivity; try lia.

Lemma SFcompare_swap (a b : spec_float) :
  SFcompare b a = option_map CompOpp (SFcompare a b).
Proof.
  destruct a as [sa|sa| |sa ma ea], b as [sb|sb| |sb mb eb];
    try destruct sa; try destruct sb; sf_crush.
Qed.

Lemma SFcompare_refl (a : spec_float) :
  a <> S754_nan -> SFcompare a a = Some Eq.
Proof.
  destruct a as [sa|sa| |sa ma ea]; try destruct sa; intros Hn;
    try congruence; try reflexivity;
    cbn [SFcompare]; change (Pos.compare_cont Eq) with Pos.compare;
    rewrite Z.compare_refl, Pos.compare_refl; reflexivity.
Qed.

Lemma SFcompare_total (a b : spec_float) :
  a <> S754_nan -> b <> S754_nan -> exists c, SFcompare a b = Some c.
Proof.
  destruct a as [sa|sa| |sa ma ea], b as [sb|sb| |sb mb eb];
    intros Ha Hb; try congruence; cbn [SFcompare]; eexists; reflexivity.
Qed.

Lemma SFcompare_lt_le_trans (a b c : spec_float) :
  SFcompare a b = Some Lt ->
  SFcompare b c = Some Lt \/ SFcompare b c = Some Eq ->
  SFcompare a c = Some Lt.
Proof.
  destruct a as [sa|sa| |sa ma ea], b as [sb|sb| |sb mb eb],
    c as [sc|sc| |sc mc ec];
    try destruct sa; try destruct sb; try destruct sc;
    intros H1 [H2|H2]; revert H1 H2; sf_crush.
Qed.

(** *** The same facts on primitive floats *)

Lemma ltb_cmp (a b : float) : (a <? b) = true <-> Double.cmp a b = Some Lt.
Proof.
  rewrite ltb_spec. unfold SFltb, Double.cmp.
  destruct (SFcompare _ _) as [[]|]; split; congruence.
Qed.

Lemma leb_cmp (a b : float) :
  (a <=? b) = true <-> Double.cmp a b = Some Lt \/ Double.cmp a b = Some Eq.
Proof.
  rewrite leb_spec. unfold SFleb, Double.cmp.
  destruct (SFcompare _ _) as [[]|]; split; intros H;
    try congruence; auto; destruct H; congruence.
Qed.

Lemma is_nan_cmp (a : float) : is_nan a = false <-> Prim2SF a <> S754_nan.
Proof.
  unfold is_nan. rewrite eqb_spec. unfold SFeqb. split.
  - intros H Hn. rewrite Hn in H. discriminate.
  - intros H. rewrite SFcompare_refl by assumption. reflexivity.
Qed.

Lemma ltb_asym (a b : float) : (a <? b) = true -> (b <? a) = false.
Proof.
  intros H. apply ltb_cmp in H. rewrite ltb_spec. unfold SFltb, Double.cmp in *.
  rewrite SFcompare_swap, H. reflexivity.
Qed.

Lemma ltb_leb (a b : float) : (a <? b) = true -> (a <=? b) = true.
Proof. intros H. apply leb_cmp. left. apply ltb_cmp, H. Qed.

Lemma leb_refl (a : float) : is_nan a = false -> (a <=? a) = true.
Proof.
  intros H. apply leb_cmp. right. apply SFcompare_refl, is_nan_cmp, H.
Qed.

Lemma ltb_leb_trans (a b c : float) :
  (a <? b) = true -> (b <=? c) = true -> (a <? c) = true.
Proof.
  intros H1 H2. apply ltb_cmp. apply ltb_cmp in H1. apply leb_cmp in H2.
  eapply SFcompare_lt_le_trans; eassumption.
Qed.

Lemma ltb_false_leb (a b : float) :
  is_nan a = false -> is_nan b = false -> (a <? b) = false -> (b <=? a) = true.
Proof.
  intros Ha Hb H. apply is_nan_cmp in Ha. apply is_nan_cmp in Hb.
  destruct (SFcompare_total _ _ Ha Hb) as [c Hc].
  apply leb_cmp. unfold Double.cmp. rewrite SFcompare_swap, Hc.
  rewrite ltb_spec in H. unfold SFltb in H. rewrite Hc in H.
  destruct c; cbn; auto; discriminate.
Qed.

Lemma SFcompare_le_le_trans (a b c : spec_float) :
  SFcompare a b = Some Lt \/ SFcompare a b = Some Eq ->
  SFcompare b c = Some Lt \/ SFcompare b c = Some Eq ->
  SFcompare a c = Some Lt \/ SFcompare a c = Some Eq.
Proof.
  destruct a as [sa|sa| |sa ma ea], b as [sb|sb| |sb mb eb],
    c as [sc|sc| |sc mc ec];
    try destruct sa; try destruct sb; try destruct sc;
    intros [H1|H1] [H2|H2]; revert H1 H2; sf_crush;
    try (left; reflexivity); try (right; reflexivity).
Qed.

Lemma leb_trans (a b c : float) :
  (a <=? b) = true -> (b <=? c) = true -> (a <=? c) = true.
Proof.
  intros H1 H2. apply leb_cmp. apply leb_cmp in H1. apply leb_cmp in H2.
  eapply SFcompare_le_le_trans; eassumption.
Qed.

Lemma leb_ltb_false (a b : float) : (a <=? b) = true -> (b <? a) = false.
Proof.
  intros H. apply leb_cmp in H. rewrite ltb_spec. unfold SFltb.
  unfold Double.cmp in H. rewrite SFcompare_swap.
  destruct H as [-> | ->]; reflexivity.
Qed.

Lemma ltb_leb_false (a b : float) : (a <? b) = true -> (b <=? a) = false.
Proof.
  intros H. apply ltb_cmp in H. rewrite leb_spec. unfold SFleb.
  unfold Double.cmp in H. rewrite SFcompare_swap, H. reflexivity.
Qed.

Lemma is_nan_true (a : float) : is_nan a = true -> Prim2SF a = S754_nan.
Proof.
  intros H. destruct (Prim2SF a) eqn:Ha; try reflexivity;
    assert (Hn : is_nan a = false)
      by (apply is_nan_cmp; rewrite Ha; discriminate);
    congruence.
Qed.

(** A NaN compares false with everything, on either side. *)
Lemma nan_compares_false (a b : float) :
  is_nan a = true ->
  (a <? b) = false /\ (b <? a) = false /\
  (a <=? b) = false /\ (b <=? a) = false.
Proof.
  intros H. apply is_nan_true in H.
  rewrite !ltb_spec, !leb_spec. unfold SFltb, SFleb. rewrite H.
  cbn [SFcompare]. destruct (Prim2SF b); repeat split.
Qed.

End DoubleFacts.

(** ** Properties of the library routines *)

Section Routines.

Context {A : Type}.

Lemma find_if_loop_spec (pred : A -> bool) (l : list A) (it : nat) :
  find_if_loop pred l it = (it + List.length (before_first pred l))%nat.
Proof.
  revert it. induction l as [|a rest IH]; intros it; cbn.
  - lia.
  - destruct (pred a); cbn; [lia|]. rewrite IH. lia.
Qed.

Lemma before_first_prefix (pred : A -> bool) (l : list A) :
  firstn (List.length (before_first pred l)) l = before_first pred l.
Proof.
  induction l as [|a rest IH]; cbn; [reflexivity|].
  destruct (pred a); cbn; [reflexivity|]. now rewrite IH.
Qed.

Lemma before_first_app (pred : A -> bool) (pre post : list A) (a : A) :
  Forall (fun b => pred b = false) pre -> pred a = true ->
  before_first pred (pre ++ a :: post) = pre.
Proof.
  induction 1 as [|b pre Hb _ IH]; intros Ha; cbn.
  - now rewrite Ha.
  - rewrite Hb. now rewrite IH.
Qed.

Lemma before_first_all (pred : A -> bool) (l : list A) :
  Forall (fun b => pred b = false) l -> before_first pred l = l.
Proof.
  induction 1 as [|b l Hb _ IH]; cbn; [reflexivity|].
  rewrite Hb. now rewrite IH.
Qed.

Lemma range_find_if (pred : A -> bool) (v : list A) (first : nat) :
  range v first (find_if v first pred) = before_first pred (skipn first v).
Proof.
  unfold range, find_if. rewrite find_if_loop_spec.
  replace (first + _ - first)%nat
    with (List.length (before_first pred (skipn first v))) by lia.
  apply before_first_prefix.
Qed.

Lemma nth_back (l : list A) (d : A) :
  l <> [] -> nth_error l (List.length l - 1) = Some (back l d).
Proof.
  intros Hl. unfold back. apply nth_error_nth'.
  destruct l; [congruence|]. cbn. lia.
Qed.

Lemma back_last (l : list A) (d : A) : back l d = last l d.
Proof.
  unfold back. induction l as [|a rest IH]; [reflexivity|].
  destruct rest as [|b rest]; [reflexivity|].
  cbn [List.length] in *.
  replace (S (S (List.length rest)) - 1)%nat with (S (List.length rest)) by lia.
  replace (S (List.length rest) - 1)%nat with (List.length rest) in IH by lia.
  cbn [nth last] in *. exact IH.
Qed.

End Routines.

(** ** The lookahead selector *)

Section Lookahead.

Variable env : Env.

Lemma getLookAheadPoint_first (d : float) (plan : Path.t)
    (pre post : list PoseStamped.t) (p : PoseStamped.t) :
  Path.poses plan = pre ++ p :: post ->
  Forall (fun q => far_enough env d q = false) pre ->
  far_enough env d p = true ->
  getLookAheadPoint env d plan = Some p.
Proof.
  intros Hp Hpre Hfar. unfold getLookAheadPoint, find_if. rewrite Hp.
  cbn [skipn]. rewrite find_if_loop_spec, before_first_app by assumption.
  cbn [Nat.add]. rewrite length_app. cbn [List.length].
  replace (Nat.eqb _ (List.length pre + S (List.length post))) with false
    by (symmetry; apply Nat.eqb_neq; lia).
  replace (Nat.eqb (List.length pre + S (List.length post)) 0) with false
    by (symmetry; apply Nat.eqb_neq; lia).
  rewrite nth_error_app2 by lia. now rewrite Nat.sub_diag.
Qed.

Lemma getLookAheadPoint_last (d : float) (plan : Path.t) :
  Path.poses plan <> [] ->
  Forall (fun q => far_enough env d q = false) (Path.poses plan) ->
  getLookAheadPoint env d plan =
    Some (last (Path.poses plan) PoseStamped.default).
Proof.
  intros Hne Hall. unfold getLookAheadPoint, find_if.
  cbn [skipn]. rewrite find_if_loop_spec, before_first_all by assumption.
  cbn [Nat.add]. rewrite Nat.eqb_refl.
  replace (Nat.eqb (List.length (Path.poses plan)) 0) with false.
  - rewrite <- back_last. now apply nth_back.
  - symmetry. apply Nat.eqb_neq. destruct (Path.poses plan); cbn; congruence.
Qed.

(** Every list splits at the first element on which [pred] holds. *)
Lemma first_split {B : Type} (pred : B -> bool) (l : list B) :
  Forall (fun b => pred b = false) l \/
  exists pre b post, l = pre ++ b :: post /\
    Forall (fun c => pred c = false) pre /\ pred b = true.
Proof.
  induction l as [|a rest [IH|(pre & b & post & -> & Hpre & Hb)]].
  - left. constructor.
  - destruct (pred a) eqn:Ha.
    + right. exists [], a, rest. repeat split; auto.
    + left. constructor; assumption.
  - destruct (pred a) eqn:Ha.
    + right. exists [], a, (pre ++ b :: post). repeat split; auto.
    + right. exists (a :: pre), b, post. repeat split; auto.
Qed.

(** On a non-empty path the selection is defined. *)
Lemma getLookAheadPoint_defined (d : float) (plan : Path.t) :
  Path.poses plan <> [] -> exists p, getLookAheadPoint env d plan = Some p.
Proof.
  intros Hne.
  destruct (first_split (far_enough env d) (Path.poses plan))
    as [Hall|(pre & b & post & Hp & Hpre & Hb)].
  - eexists. now apply getLookAheadPoint_last.
  - exists b. eapply getLookAheadPoint_first; eassumption.
Qed.

(** C4. On a non-empty local path [getLookAheadPoint] returns a pose, and
    that pose is the first one in path order whose distance from the origin
    [hypot x y] is [>=] the lookahead distance; when no pose of the path is
    that far, it is the last pose of the path. *)
Theorem getLookAheadPoint_spec (d : float) (plan : Path.t) :
  Path.poses plan <> [] ->
  (exists p, getLookAheadPoint env d plan = Some p) /\
  (forall pre p post,
      Path.poses plan = pre ++ p :: post ->
      Forall (fun q => far_enough env d q = false) pre ->
      far_enough env d p = true ->
      getLookAheadPoint env d plan = Some p) /\
  (Forall (fun q => far_enough env d q = false) (Path.poses plan) ->
   getLookAheadPoint env d plan =
     Some (last (Path.poses plan) PoseStamped.default)).
Proof.
  intros Hne. split; [|split].
  - now apply getLookAheadPoint_defined.
  - intros pre p post. apply getLookAheadPoint_first.
  - now apply getLookAheadPoint_last.
Qed.

End Lookahead.

(** Scenario A of the specification: on P0 = (0,0), P1 = (1,0), P2 = (2,0)
    with lookahead 1.0 the carrot is P1; with lookahead 5.0 it is P2. *)
Lemma getLookAheadPoint_spec_witness :
  getLookAheadPoint (Demo.env 0) 1.0 (Demo.path [Demo.P0; Demo.P1; Demo.P2])
    = Some Demo.P1 /\
  getLookAheadPoint (Demo.env 0) 5.0 (Demo.path [Demo.P0; Demo.P1; Demo.P2])
    = Some Demo.P2.
Proof.
  split.
  - apply (proj1 (proj2 (getLookAheadPoint_spec (Demo.env 0) 1.0
             (Demo.path [Demo.P0; Demo.P1; Demo.P2])
             ltac:(discriminate))) [Demo.P0] Demo.P1 [Demo.P2]).
    + reflexivity.
    + repeat constructor.
    + reflexivity.
  - apply (proj2 (proj2 (getLookAheadPoint_spec (Demo.env 0) 5.0
             (Demo.path [Demo.P0; Demo.P1; Demo.P2])
             ltac:(discriminate)))).
    repeat constructor.
Defined.

(** ** [min_by] finds the first minimum *)

Section MinBy.

Context {A : Type}.
Variable f : A -> float.

Lemma min_by_loop_spec (l seen : list A) (lowest_it : nat) (c : A) :
  (forall q, In q (seen ++ l) -> is_nan (f q) = false) ->
  first_minimum f seen lowest_it c ->
  exists c',
    first_minimum f (seen ++ l)
      (min_by_loop f l (List.length seen) (f c) lowest_it) c'.
Proof.
  revert seen lowest_it c.
  induction l as [|a rest IH]; intros seen lowest_it c Hnn (Hc & Hmin & Hfirst).
  - exists c. rewrite app_nil_r. cbn. repeat split; assumption.
  - assert (Hlt : (lowest_it < List.length seen)%nat)
      by (apply nth_error_Some; congruence).
    assert (Hseen : forall j q, (j < List.length seen)%nat ->
              nth_error (seen ++ [a]) j = Some q -> In q seen).
    { intros j q Hj Hq. rewrite nth_error_app1 in Hq by assumption.
      eapply nth_error_In; eassumption. }
    assert (Hna : is_nan (f a) = false)
      by (apply Hnn, in_or_app; right; left; reflexivity).
    assert (Hnc : is_nan (f c) = false).
    { apply Hnn, in_or_app. left. eapply nth_error_In; eassumption. }
    cbn [min_by_loop].
    replace (seen ++ a :: rest) with ((seen ++ [a]) ++ rest) in *
      by (rewrite <- app_assoc; reflexivity).
    replace (S (List.length seen)) with (List.length (seen ++ [a]))
      by (rewrite length_app; cbn; lia).
    destruct (f a <? f c) eqn:Hcmp.
    + apply IH; [assumption|]. split; [|split].
      * rewrite nth_error_app2, Nat.sub_diag by lia. reflexivity.
      * intros q Hq. apply in_app_or in Hq. destruct Hq as [Hq|[<-|[]]].
        -- apply DoubleFacts.ltb_leb. eapply DoubleFacts.ltb_leb_trans; eauto.
        -- now apply DoubleFacts.leb_refl.
      * intros j q Hj Hq. eapply DoubleFacts.ltb_leb_trans; eauto.
    + apply IH; [assumption|]. split; [|split].
      * rewrite nth_error_app1 by assumption. assumption.
      * intros q Hq. apply in_app_or in Hq. destruct Hq as [Hq|[<-|[]]].
        -- auto.
        -- now apply DoubleFacts.ltb_false_leb.
      * intros j q Hj Hq. apply (Hfirst j q Hj).
        rewrite nth_error_app1 in Hq by lia. assumption.
Qed.

Lemma min_by_spec (v : list A) :
  v <> [] ->
  (forall q, In q v -> is_nan (f q) = false) ->
  exists c, first_minimum f v (min_by v f) c.
Proof.
  destruct v as [|a rest]; [congruence|]. intros _ Hnn.
  apply (min_by_loop_spec rest [a] 0 a Hnn).
  split; [reflexivity|split].
  - intros q [<-|[]]. apply DoubleFacts.leb_refl, Hnn. left. reflexivity.
  - intros j q Hj. lia.
Qed.

Lemma min_by_loop_bound (l : list A) (it : nat) (lowest : float) (lowest_it : nat) :
  (lowest_it < it)%nat ->
  (min_by_loop f l it lowest lowest_it < it + List.length l)%nat.
Proof.
  revert it lowest lowest_it.
  induction l as [|a rest IH]; intros it lowest lowest_it Hlt; cbn.
  - lia.
  - destruct (f a <? lowest).
    + specialize (IH (S it) (f a) it). lia.
    + specialize (IH (S it) lowest lowest_it). lia.
Qed.

(** On a non-empty vector [min_by] never returns [end()]. *)
Lemma min_by_bound (v : list A) :
  v <> [] -> (min_by v f < List.length v)%nat.
Proof.
  destruct v as [|a rest]; [congruence|]. intros _. cbn [min_by List.length].
  pose proof (min_by_loop_bound rest 1 (f a) 0). lia.
Qed.

End MinBy.

Section BeforeFirst.

Context {A : Type}.

(** [before_first] cuts the list just before the first element on which
    [pred] holds. *)
Lemma before_first_cut (pred : A -> bool) (l : list A) :
  exists tail,
    l = before_first pred l ++ tail /\
    Forall (fun a => pred a = false) (before_first pred l) /\
    (tail = [] \/ exists a tail', tail = a :: tail' /\ pred a = true).
Proof.
  induction l as [|a rest (tail & Heq & Hall & Htail)]; cbn.
  - exists []. repeat split; auto.
  - destruct (pred a) eqn:Ha.
    + exists (a :: rest). repeat split; auto. right. eauto.
    + exists tail. cbn. split; [congruence|]. split; auto.
Qed.

Lemma before_first_nil (pred : A -> bool) (l : list A) :
  before_first pred l = [] <-> l = [] \/ exists a rest, l = a :: rest /\ pred a = true.
Proof.
  destruct l as [|a rest]; cbn.
  - split; auto.
  - destruct (pred a) eqn:Ha; split; intros H; try reflexivity.
    + right. eauto.
    + discriminate.
    + destruct H as [H|(b & r & H & Hb)]; [discriminate|].
      injection H as <- <-. congruence.
Qed.

End BeforeFirst.

(** ** The plan window manager *)

Lemma optimizer_calls_app (ev1 ev2 : list Event) :
  optimizer_calls (ev1 ++ ev2) = optimizer_calls ev1 ++ optimizer_calls ev2.
Proof. apply flat_map_app. Qed.

Lemma window_events_no_optimizer (ev : list Event) :
  Forall window_event ev -> optimizer_calls ev = [].
Proof.
  induction 1 as [|e ev He _ IH]; [reflexivity|].
  destruct e; cbn in *; try contradiction; assumption.
Qed.

Lemma window_events_no_footprint (ev : list Event) (x y theta : float) :
  Forall window_event ev -> ~ In (FootprintCost x y theta) ev.
Proof.
  intros H Hin. rewrite Forall_forall in H. apply (H _ Hin).
Qed.

Section Window.

Variable env : Env.

Lemma transformPose_run (frame : string) (in_pose out_pose : PoseStamped.t)
    (s : NeoMpcPlanner) :
  exists ev,
    transformPose env frame in_pose out_pose s =
      (Returns match pose_in_frame env frame in_pose with
               | Some p => (true, p)
               | None => (false, out_pose)
               end, s, ev) /\
    Forall window_event ev.
Proof.
  unfold transformPose, pose_in_frame.
  destruct (String.eqb _ frame).
  - exists []. split; [reflexivity|constructor].
  - destruct (tf_transform env in_pose frame); eexists;
      (split; [reflexivity|]); repeat constructor.
Qed.

Lemma transformGlobalPoseToLocal_run (ph rh : Header.t) (p : PoseStamped.t)
    (s : NeoMpcPlanner) :
  exists ev,
    transformGlobalPoseToLocal env ph rh p s =
      (Returns (local_pose env ph rh p), s, ev) /\
    Forall window_event ev.
Proof.
  unfold transformGlobalPoseToLocal, local_pose, bind.
  match goal with |- context [transformPose env ?f ?i ?o s] =>
    destruct (transformPose_run f i o s) as (ev & -> & Hev);
    destruct (pose_in_frame env f i) end;
    cbn; exists (ev ++ []); rewrite app_nil_r; auto.
Qed.

Lemma mapM_local_run (ph rh : Header.t) (l : list PoseStamped.t)
    (s : NeoMpcPlanner) :
  exists ev,
    mapM (transformGlobalPoseToLocal env ph rh) l s =
      (Returns (map (local_pose env ph rh) l), s, ev) /\
    Forall window_event ev.
Proof.
  induction l as [|p rest (ev & IH & Hev)]; cbn [mapM map].
  - exists []. split; [reflexivity|constructor].
  - destruct (transformGlobalPoseToLocal_run ph rh p s) as (ev1 & H1 & Hev1).
    unfold bind at 1. rewrite H1. unfold bind at 1. rewrite IH. cbn.
    eexists. split; [reflexivity|].
    rewrite app_nil_r. apply Forall_app. split; assumption.
Qed.

Lemma transformGlobalPlan_empty (pose : PoseStamped.t) (s : NeoMpcPlanner) :
  Path.poses (global_plan_ s) = [] ->
  transformGlobalPlan env pose s = (Throws EmptyPlanError, s, []).
Proof.
  intros H. unfold transformGlobalPlan, bind, get. rewrite H. reflexivity.
Qed.

Lemma transformGlobalPlan_no_transform (pose : PoseStamped.t)
    (s : NeoMpcPlanner) :
  Path.poses (global_plan_ s) <> [] ->
  pose_in_frame env (Header.frame_id (Path.header (global_plan_ s))) pose = None ->
  exists ev,
    transformGlobalPlan env pose s = (Throws TransformUnavailableError, s, ev) /\
    Forall window_event ev.
Proof.
  intros Hne Hrp. unfold transformGlobalPlan. unfold bind at 1, get.
  destruct (Path.poses (global_plan_ s)) as [|p0 rest] eqn:Hp; [congruence|].
  unfold bind at 1.
  match goal with |- context [transformPose env ?f ?i ?o s] =>
    destruct (transformPose_run f i o s) as (ev0 & -> & Hev0) end.
  rewrite Hrp. cbn. exists (ev0 ++ []). rewrite app_nil_r. auto.
Qed.

Lemma transformGlobalPlan_run (pose robot_pose : PoseStamped.t)
    (s : NeoMpcPlanner) :
  Path.poses (global_plan_ s) <> [] ->
  pose_in_frame env (Header.frame_id (Path.header (global_plan_ s))) pose
    = Some robot_pose ->
  exists ev,
    transformGlobalPlan env pose s =
      (match Path.poses (window env s robot_pose) with
       | [] => Throws EmptyWindowError
       | _ :: _ => Returns (window env s robot_pose)
       end, trimmed env s robot_pose, ev) /\
    Forall window_event ev.
Proof.
  intros Hne Hrp. unfold transformGlobalPlan. unfold bind at 1, get.
  unfold window, trimmed, near_goal, in_range_run, closest_index.
  rewrite <- (back_last (Path.poses (global_plan_ s))).
  destruct (Path.poses (global_plan_ s)) as [|p0 rest] eqn:Hp; [congruence|].
  unfold bind at 1.
  match goal with |- context [transformPose env ?f ?i ?o s] =>
    destruct (transformPose_run f i o s) as (ev0 & -> & Hev0) end.
  rewrite Hrp. cbn [fst snd negb]. cbn iota.
  set (near := _ <=? _).
  unfold bind at 1.
  replace ((if near then modify (set_closer_to_goal true)
            else modify (set_closer_to_goal false)) s)
    with (@Returns unit tt, set_closer_to_goal near s, @nil Event)
    by (destruct near; reflexivity).
  rewrite range_find_if. unfold bind at 1.
  match goal with |- context [mapM ?f ?l ?st] =>
    destruct (mapM_local_run (Path.header (global_plan_ s))
                (PoseStamped.header robot_pose) l st) as (ev1 & -> & Hev1) end.
  unfold bind, modify, emit. cbn [global_plan_ set_closer_to_goal Path.poses Path.header].
  rewrite Hp. unfold erase_prefix.
  match goal with |- context [map ?g ?l] => destruct (map g l) end;
    cbn; eexists; (split; [reflexivity|]);
    repeat (apply Forall_app; split); auto; repeat constructor.
Qed.

End Window.

Section WindowTheorems.

Variable env : Env.

Lemma skipn_nth_error {B : Type} (l : list B) (i : nat) (c : B) :
  nth_error l i = Some c -> skipn i l = c :: skipn (S i) l.
Proof.
  revert i. induction l as [|a rest IH]; intros [|i] H; cbn in *;
    try discriminate.
  - congruence.
  - now apply IH.
Qed.

(** C3. On a non-empty stored plan, with the robot pose expressible in the
    frame of the plan (as [robot_pose]), the distances to the plan poses
    comparable (no NaN) and some plan pose within [max_transform_dist] of the
    robot, [transformGlobalPlan] returns a window: its poses are, re-expressed
    in the base frame, a contiguous run of the plan in the original order,
    which starts at the pose [closest] of least distance to the robot (the
    first such pose in path order) and stops just before the first later pose
    farther than [max_transform_dist = max(size_x, size_y) * resolution / 2];
    the stored plan is left starting at [closest], everything before it
    being erased. *)
Theorem transformGlobalPlan_window (pose robot_pose : PoseStamped.t)
    (s : NeoMpcPlanner) :
  let poses := Path.poses (global_plan_ s) in
  let dist := euclidean_distance env robot_pose in
  let max_transform_dist :=
    of_uint63 (std_max (getSizeInCellsX env) (getSizeInCellsY env))
      * getResolution env / 2 in
  poses <> [] ->
  pose_in_frame env (Header.frame_id (Path.header (global_plan_ s))) pose
    = Some robot_pose ->
  (forall q, In q poses -> is_nan (dist q) = false) ->
  (exists q, In q poses /\ (max_transform_dist <? dist q) = false) ->
  exists i closest run tail s' ev,
    first_minimum dist poses i closest /\
    poses = firstn i poses ++ run ++ tail /\
    hd_error run = Some closest /\
    Forall (fun q => (max_transform_dist <? dist q) = false) run /\
    (tail = [] \/
     exists far tail', tail = far :: tail' /\
       (max_transform_dist <? dist far) = true) /\
    transformGlobalPlan env pose s =
      (Returns
         (Path.mk
            (Header.mk (Header.stamp (PoseStamped.header robot_pose))
                       (getBaseFrameID env))
            (map (local_pose env (Path.header (global_plan_ s))
                    (PoseStamped.header robot_pose)) run)),
       s', ev) /\
    Path.poses (global_plan_ s') = skipn i poses /\
    hd_error (Path.poses (global_plan_ s')) = Some closest.
Proof.
  intros poses dist mtd Hne Hrp Hnn (q0 & Hq0 & Hin0).
  destruct (min_by_spec dist poses Hne Hnn) as (closest & Hmin).
  change (min_by poses dist) with (closest_index env poses robot_pose) in Hmin.
  set (i := closest_index env poses robot_pose) in *.
  pose proof Hmin as (Hnth & Hle & Hfirst).
  assert (Hclose : outside_costmap env robot_pose closest = false).
  { destruct (outside_costmap env robot_pose closest) eqn:Ho; [|reflexivity].
    unfold outside_costmap, Double.gtb in Ho.
    pose proof (DoubleFacts.ltb_leb_trans _ _ _ Ho (Hle q0 Hq0)) as Hc.
    change (max_transform_dist env) with mtd in Hc. congruence. }
  pose proof (skipn_nth_error poses i closest Hnth) as Hskip.
  destruct (before_first_cut (outside_costmap env robot_pose) (skipn i poses))
    as (tail & Hcut & Hall & Htail).
  destruct (transformGlobalPlan_run env pose robot_pose s Hne Hrp)
    as (ev & Hrun & _).
  exists i, closest, (in_range_run env poses robot_pose), tail,
    (trimmed env s robot_pose), ev.
  assert (Hhd : hd_error (in_range_run env poses robot_pose) = Some closest).
  { unfold in_range_run. fold i. rewrite Hskip. cbn [before_first].
    now rewrite Hclose. }
  repeat split; try assumption.
  - rewrite <- (firstn_skipn i poses) at 1. f_equal. exact Hcut.
  - rewrite Hrun. unfold window. fold poses.
    destruct (in_range_run env poses robot_pose); [discriminate|reflexivity].
  - unfold trimmed. cbn [global_plan_ set_global_plan_ Path.poses].
    fold poses i. now rewrite Hskip.
Qed.

(** C9. [transformGlobalPlan] throws the empty-plan exception exactly when
    the stored plan has no pose, and then nothing has been trimmed,
    transformed or published; it throws the empty-window exception exactly
    when the plan is not empty, the robot pose is expressible in the frame of
    the plan, and the window is empty -- in particular whenever every pose of
    a non-empty plan is farther than [max_transform_dist] from the robot. *)
Theorem transformGlobalPlan_errors (pose : PoseStamped.t) (s : NeoMpcPlanner) :
  let poses := Path.poses (global_plan_ s) in
  let frame := Header.frame_id (Path.header (global_plan_ s)) in
  (fst (fst (transformGlobalPlan env pose s)) = Throws EmptyPlanError
   <-> poses = []) /\
  (poses = [] ->
   transformGlobalPlan env pose s = (Throws EmptyPlanError, s, [])) /\
  (fst (fst (transformGlobalPlan env pose s)) = Throws EmptyWindowError
   <-> poses <> [] /\
       exists robot_pose,
         pose_in_frame env frame pose = Some robot_pose /\
         Path.poses (window env s robot_pose) = []) /\
  (forall robot_pose,
     poses <> [] ->
     pose_in_frame env frame pose = Some robot_pose ->
     Forall (fun q =>
       (max_transform_dist env <? euclidean_distance env robot_pose q) = true)
       poses ->
     fst (fst (transformGlobalPlan env pose s)) = Throws EmptyWindowError).
Proof.
  intros poses frame.
  assert (Hcases :
    poses = [] /\ transformGlobalPlan env pose s = (Throws EmptyPlanError, s, [])
    \/ poses <> [] /\ pose_in_frame env frame pose = None /\
       fst (fst (transformGlobalPlan env pose s)) = Throws TransformUnavailableError
    \/ poses <> [] /\ exists robot_pose,
         pose_in_frame env frame pose = Some robot_pose /\
         fst (fst (transformGlobalPlan env pose s)) =
           match Path.poses (window env s robot_pose) with
           | [] => Throws EmptyWindowError
           | _ :: _ => Returns (window env s robot_pose)
           end).
  { destruct poses as [|p0 rest] eqn:Hp.
    - left. split; [reflexivity|]. now apply transformGlobalPlan_empty.
    - right. assert (Hne : Path.poses (global_plan_ s) <> [])
        by (fold poses; congruence).
      destruct (pose_in_frame env frame pose) as [robot_pose|] eqn:Hrp.
      + right. split; [congruence|]. exists robot_pose. split; [reflexivity|].
        destruct (transformGlobalPlan_run env pose robot_pose s Hne Hrp)
          as (ev & -> & _). reflexivity.
      + left. split; [congruence|]. split; [reflexivity|].
        destruct (transformGlobalPlan_no_transform env pose s Hne Hrp)
          as (ev & -> & _). reflexivity. }
  split; [|split; [|split]].
  - destruct Hcases as [(H0 & ->)|[(Hne & _ & ->)|(Hne & rp & _ & ->)]];
      split; intros H; try assumption; try reflexivity; try congruence.
    destruct (Path.poses (window env s rp)); discriminate.
  - intros H0. destruct Hcases as [(_ & H)|[(Hne & _)|(Hne & _)]]; congruence.
  - destruct Hcases as [(H0 & ->)|[(Hne & Hn & ->)|(Hne & rp & Hrp & ->)]];
      split.
    + discriminate.
    + intros (Hne & _). congruence.
    + discriminate.
    + intros (_ & rp & Hrp & _). congruence.
    + intros H. split; [assumption|]. exists rp. split; [assumption|].
      destruct (Path.poses (window env s rp)); [reflexivity|discriminate].
    + intros (_ & rp' & Hrp' & Hw). rewrite Hrp in Hrp'.
      injection Hrp' as <-. now rewrite Hw.
  - intros robot_pose Hne Hrp Hfar.
    destruct (transformGlobalPlan_run env pose robot_pose s Hne Hrp)
      as (ev & -> & _). cbn [fst].
    replace (Path.poses (window env s robot_pose)) with (@nil PoseStamped.t);
      [reflexivity|].
    symmetry. unfold window, in_range_run. cbn [Path.poses]. fold poses.
    pose proof (min_by_bound (fun ps => euclidean_distance env robot_pose ps)
                  poses Hne) as Hb.
    fold (closest_index env poses robot_pose) in Hb.
    destruct (nth_error poses (closest_index env poses robot_pose))
      as [c|] eqn:Hc; [|apply nth_error_None in Hc; lia].
    rewrite (skipn_nth_error _ _ _ Hc). cbn [before_first].
    replace (outside_costmap env robot_pose c) with true; [reflexivity|].
    symmetry. rewrite Forall_forall in Hfar.
    apply Hfar. eapply nth_error_In; eassumption.
Qed.

End WindowTheorems.

(** On [plan_along_x] the closest pose is the second one (index 1); the
    window holds the second and third poses, the stored plan keeps the last
    three. *)
Lemma transformGlobalPlan_window_witness :
  let env := Demo.env 0 in
  let s := Demo.planner plan_along_x false None in
  let dist := euclidean_distance env Demo.robot in
  exists i closest run tail s' ev,
    first_minimum dist plan_along_x i closest /\
    plan_along_x = firstn i plan_along_x ++ run ++ tail /\
    hd_error run = Some closest /\
    Forall (fun q => (max_transform_dist env <? dist q) = false) run /\
    (tail = [] \/
     exists far tail', tail = far :: tail' /\
       (max_transform_dist env <? dist far) = true) /\
    transformGlobalPlan env Demo.robot s =
      (Returns
         (Path.mk (Header.mk 7%Z "base_link")
            (map (local_pose env (Path.header (global_plan_ s))
                    (PoseStamped.header Demo.robot)) run)),
       s', ev) /\
    Path.poses (global_plan_ s') = skipn i plan_along_x /\
    hd_error (Path.poses (global_plan_ s')) = Some closest.
Proof.
  apply (transformGlobalPlan_window (Demo.env 0) Demo.robot Demo.robot
           (Demo.planner plan_along_x false None)).
  - discriminate.
  - reflexivity.
  - intros q [<-|[<-|[<-|[<-|[]]]]]; reflexivity.
  - exists (Demo.G 1 0). split; [cbn; auto|reflexivity].
Defined.

(** Scenario B of the specification: every pose of the plan is farther than
    [max_transform_dist] from the robot. *)
Lemma transformGlobalPlan_errors_witness :
  fst (fst (transformGlobalPlan (Demo.env 0) Demo.robot
              (Demo.planner [Demo.G 2 0; Demo.G 3 0] false None)))
    = Throws EmptyWindowError.
Proof.
  apply (proj2 (proj2 (proj2 (transformGlobalPlan_errors (Demo.env 0)
           Demo.robot (Demo.planner [Demo.G 2 0; Demo.G 3 0] false None))))
           Demo.robot).
  - discriminate.
  - reflexivity.
  - repeat constructor.
Defined.

(** ** The active lookahead distance and the near-goal flag *)

Section LookaheadDistance.

Variable env : Env.

(** C5. [getLookAheadDistance] returns the close-to-goal distance whenever
    [closer_to_goal] holds; otherwise the max distance when [slow_down_] is
    off, and the min distance when it is on. [closer_to_goal] is set by
    [transformGlobalPlan], as soon as the plan is not empty and the robot pose
    is expressible in its frame, to whether the distance from the robot to the
    final pose of the plan is [<=] the close-to-goal distance -- that final
    pose being the stored goal whenever the plan came from [setPlan]; the
    regime flag and the three distances are left as they were. *)
Theorem getLookAheadDistance_spec (s : NeoMpcPlanner) (speed : Twist.t) :
  getLookAheadDistance s speed =
    (if closer_to_goal s then lookahead_dist_close_to_goal_ s
     else if negb (slow_down_ s) then lookahead_dist_max_ s
     else lookahead_dist_min_ s) /\
  forall pose robot_pose,
    Path.poses (global_plan_ s) <> [] ->
    pose_in_frame env (Header.frame_id (Path.header (global_plan_ s))) pose
      = Some robot_pose ->
    let goal :=
      PoseStamped.mk (Path.header (global_plan_ s))
        (PoseStamped.pose
           (last (Path.poses (global_plan_ s)) PoseStamped.default)) in
    let s' := snd (fst (transformGlobalPlan env pose s)) in
    closer_to_goal s' =
      (euclidean_distance env robot_pose goal
         <=? lookahead_dist_close_to_goal_ s) /\
    slow_down_ s' = slow_down_ s /\
    lookahead_dist_min_ s' = lookahead_dist_min_ s /\
    (goal_is_final s ->
     goal = PoseStamped.mk (Path.header (global_plan_ s)) (goal_pose s)) /\
    slow_down_ s' = slow_down_ s /\
    lookahead_dist_min_ s' = lookahead_dist_min_ s /\
    lookahead_dist_max_ s' = lookahead_dist_max_ s /\
    lookahead_dist_close_to_goal_ s' = lookahead_dist_close_to_goal_ s.
Proof.
  split.
  - unfold getLookAheadDistance.
    destruct (closer_to_goal s), (slow_down_ s); reflexivity.
  - intros pose robot_pose Hne Hrp goal s'. subst s'.
    destruct (transformGlobalPlan_run env pose robot_pose s Hne Hrp)
      as (ev & -> & _).
    cbn. repeat split. intros Hgoal. unfold goal. now rewrite Hgoal.
Qed.

End LookaheadDistance.

(** With the goal 2 m away the flag is off and the distance follows the
    regime; with the goal 0.2 m away the close-to-goal distance is used. *)
Lemma getLookAheadDistance_spec_witness :
  closer_to_goal
    (snd (fst (transformGlobalPlan (Demo.env 0) Demo.robot
                 (Demo.planner [Demo.G (-1) 0; Demo.G 0.2 0] true None))))
    = true /\
  closer_to_goal
    (snd (fst (transformGlobalPlan (Demo.env 0) Demo.robot
                 (Demo.planner plan_along_x true None))))
    = false.
Proof.
  split.
  - rewrite (proj1 (proj2 (getLookAheadDistance_spec (Demo.env 0)
      (Demo.planner [Demo.G (-1) 0; Demo.G 0.2 0] true None) Demo.speed)
      Demo.robot Demo.robot ltac:(discriminate) eq_refl)).
    reflexivity.
  - rewrite (proj1 (proj2 (getLookAheadDistance_spec (Demo.env 0)
      (Demo.planner plan_along_x true None) Demo.speed)
      Demo.robot Demo.robot ltac:(discriminate) eq_refl)).
    reflexivity.
Defined.

(** ** The control tick *)

Section Tick.

Variable env : Env.

(** How [transformGlobalPlan] can end: it returns a window that is not empty
    or throws one of its three exceptions; it only makes tf, log and publish
    calls, and leaves the mutex, the regime flag and the goal as they are. *)
Lemma transformGlobalPlan_outcome (pose : PoseStamped.t) (s : NeoMpcPlanner) :
  exists o s1 ev1,
    transformGlobalPlan env pose s = (o, s1, ev1) /\
    Forall window_event ev1 /\
    match o with
    | Returns plan => Path.poses plan <> []
    | Throws e => e <> CollisionDetectedError
    | Blocks | Undefined => False
    end /\
    mutex_ s1 = mutex_ s /\ slow_down_ s1 = slow_down_ s /\
    lookahead_dist_min_ s1 = lookahead_dist_min_ s /\
    lookahead_dist_max_ s1 = lookahead_dist_max_ s /\
    lookahead_dist_close_to_goal_ s1 = lookahead_dist_close_to_goal_ s.
Proof.
  destruct (Path.poses (global_plan_ s)) as [|p0 rest] eqn:Hp.
  - rewrite (transformGlobalPlan_empty env pose s Hp).
    do 3 eexists. split; [reflexivity|]. repeat split; [constructor|discriminate].
  - assert (Hne : Path.poses (global_plan_ s) <> []) by congruence.
    destruct (pose_in_frame env (Header.frame_id (Path.header (global_plan_ s)))
                pose) as [robot_pose|] eqn:Hrp.
    + destruct (transformGlobalPlan_run env pose robot_pose s Hne Hrp)
        as (ev & -> & Hev).
      do 3 eexists. split; [reflexivity|]. split; [assumption|].
      split; [|repeat split; reflexivity].
      destruct (Path.poses (window env s robot_pose)) eqn:Hw;
        [discriminate|congruence].
    + destruct (transformGlobalPlan_no_transform env pose s Hne Hrp)
        as (ev & -> & Hev).
      do 3 eexists. split; [reflexivity|]. split; [assumption|].
      split; [discriminate|repeat split; reflexivity].
Qed.

Lemma computeVelocityCommands_body_throws (position : PoseStamped.t)
    (speed : Twist.t) (s s1 : NeoMpcPlanner) (e : PlannerException)
    (ev1 : list Event) :
  transformGlobalPlan env position s = (Throws e, s1, ev1) ->
  computeVelocityCommands_body env position speed s = (Throws e, s1, ev1).
Proof.
  intros H. unfold computeVelocityCommands_body. unfold bind at 1.
  rewrite H. reflexivity.
Qed.

Lemma computeVelocityCommands_body_run (position : PoseStamped.t)
    (speed : Twist.t) (s s1 : NeoMpcPlanner) (plan : Path.t)
    (ev1 : list Event) :
  transformGlobalPlan env position s = (Returns plan, s1, ev1) ->
  let pos := Pose.position (PoseStamped.pose position) in
  let theta := getYaw env (Pose.orientation (PoseStamped.pose position)) in
  let footprint_cost :=
    footprintCostAtPose env (Point.x pos) (Point.y pos) theta in
  exists carrot_pose,
    getLookAheadPoint env (getLookAheadDistance s1 speed) plan
      = Some carrot_pose /\
    let carrot_yaw :=
      abs (createYawFromQuat env
             (Pose.orientation (PoseStamped.pose carrot_pose))) in
    let s2 := set_slow_down_ (slow_down_after carrot_yaw footprint_cost) s1 in
    let request :=
      Request.mk speed carrot_pose (goal_pose s2) position
        (closer_to_goal s2) (1.0 / control_frequency s2) in
    computeVelocityCommands_body env position speed s =
      if footprint_cost =? 255
      then (Throws CollisionDetectedError, s2,
            ev1 ++ [FootprintCost (Point.x pos) (Point.y pos) theta])
      else (Returns (optimizer env request), s2,
            ev1 ++ [FootprintCost (Point.x pos) (Point.y pos) theta;
                    PublishCarrot (createCarrotMsg carrot_pose);
                    OptimizerRequest request]).
Proof.
  intros H pos theta footprint_cost.
  destruct (transformGlobalPlan_outcome position s)
    as (o & s1' & ev1' & Hrun & _ & Hne & _).
  rewrite H in Hrun. injection Hrun as <- <- <-.
  destruct (getLookAheadPoint_defined env (getLookAheadDistance s1 speed) plan
              Hne) as (carrot_pose & Hcarrot).
  exists carrot_pose. split; [assumption|]. intros carrot_yaw s2 request.
  unfold computeVelocityCommands_body. unfold bind at 1. rewrite H.
  unfold bind at 1, get. unfold bind at 1. rewrite Hcarrot.
  unfold defined at 1, ret at 1. unfold bind at 1, emit at 1.
  fold pos theta footprint_cost carrot_yaw.
  unfold s2, request, slow_down_after.
  destruct (carrot_yaw <? 1.0) eqn:Hyaw.
  - assert (Hgt : Double.gtb carrot_yaw 1.0 = false)
      by (apply DoubleFacts.ltb_asym; exact Hyaw).
    unfold carrot_yaw in Hgt.
    unfold bind, modify, defined, ret, get, emit, throw. cbn beta iota.
    rewrite Hgt. cbn [andb].
    destruct (footprint_cost =? 255); cbn; rewrite ?app_nil_r; reflexivity.
  - unfold bind, modify, defined, ret, get, emit, throw.
    destruct (Double.geb carrot_yaw 1.0 && Double.gtb footprint_cost 200);
      destruct (footprint_cost =? 255); cbn; rewrite ?app_nil_r; reflexivity.
Qed.

End Tick.

Section TickTheorems.

Variable env : Env.

Lemma computeVelocityCommands_locked (position : PoseStamped.t)
    (speed : Twist.t) (s : NeoMpcPlanner) (th : Thread) :
  mutex_ s = Some th ->
  computeVelocityCommands env position speed s = (Blocks, s, []).
Proof.
  intros H. unfold computeVelocityCommands, lock_guard. now rewrite H.
Qed.

Lemma computeVelocityCommands_unlocked (position : PoseStamped.t)
    (speed : Twist.t) (s : NeoMpcPlanner) :
  mutex_ s = None ->
  computeVelocityCommands env position speed s =
    match computeVelocityCommands_body env position speed
            (set_mutex_ (Some ControlThread) s) with
    | (o, s1, ev) => (o, set_mutex_ None s1, ev)
    end.
Proof.
  intros H. unfold computeVelocityCommands, lock_guard. now rewrite H.
Qed.

(** C1. In a tick whose footprint cost is the collision sentinel 255, no
    request is sent to the optimizer and no velocity command is produced;
    and whenever the tick gets as far as asking for the footprint cost, it
    ends by throwing the collision exception. *)
Theorem computeVelocityCommands_collision (position : PoseStamped.t)
    (speed : Twist.t) (s : NeoMpcPlanner) :
  let pos := Pose.position (PoseStamped.pose position) in
  let theta := getYaw env (Pose.orientation (PoseStamped.pose position)) in
  let tick := computeVelocityCommands env position speed s in
  (footprintCostAtPose env (Point.x pos) (Point.y pos) theta =? 255) = true ->
  optimizer_calls (snd tick) = [] /\
  produced_command (fst (fst tick)) = None /\
  (In (FootprintCost (Point.x pos) (Point.y pos) theta) (snd tick) ->
   fst (fst tick) = Throws CollisionDetectedError).
Proof.
  intros pos theta tick Hcost. subst tick.
  destruct (mutex_ s) as [th|] eqn:Hm.
  - rewrite (computeVelocityCommands_locked position speed s th Hm).
    cbn. repeat split. contradiction.
  - rewrite (computeVelocityCommands_unlocked position speed s Hm).
    destruct (transformGlobalPlan_outcome env position
                (set_mutex_ (Some ControlThread) s))
      as (o & s1 & ev1 & Hrun & Hev & Ho & _).
    destruct o as [plan|e| |]; try contradiction.
    + destruct (computeVelocityCommands_body_run env position speed _ _ _ _ Hrun)
        as (carrot_pose & _ & ->).
      fold pos theta. rewrite Hcost. cbn [fst snd produced_command].
      rewrite optimizer_calls_app, (window_events_no_optimizer _ Hev).
      repeat split.
    + rewrite (computeVelocityCommands_body_throws env position speed _ _ _ _ Hrun).
      cbn [fst snd produced_command].
      rewrite (window_events_no_optimizer _ Hev). repeat split.
      intros Hin. exfalso.
      exact (window_events_no_footprint _ _ _ _ Hev Hin).
Qed.

(** C10. The re-probe of the lookahead point repeats the first selection
    (same distance, same window), so in a tick whose carrot has an absolute
    heading below 1.0 rad the override back to the slow regime never fires:
    whatever the footprint cost and the regime before, the tick ends with
    [slow_down_] off. *)
Theorem reprobe_never_overrides (position : PoseStamped.t) (speed : Twist.t)
    (s s1 : NeoMpcPlanner) (plan : Path.t) (ev1 : list Event) :
  mutex_ s = None ->
  transformGlobalPlan env position (set_mutex_ (Some ControlThread) s)
    = (Returns plan, s1, ev1) ->
  exists carrot_pose,
    getLookAheadPoint env (getLookAheadDistance s1 speed) plan
      = Some carrot_pose /\
    ((abs (createYawFromQuat env
             (Pose.orientation (PoseStamped.pose carrot_pose))) <? 1.0) = true ->
     slow_down_ (snd (fst (computeVelocityCommands env position speed s)))
       = false).
Proof.
  intros Hm Hrun.
  destruct (computeVelocityCommands_body_run env position speed _ _ _ _ Hrun)
    as (carrot_pose & Hcarrot & Hbody).
  exists carrot_pose. split; [assumption|]. intros Hyaw.
  rewrite (computeVelocityCommands_unlocked position speed s Hm), Hbody.
  unfold slow_down_after. rewrite Hyaw.
  match goal with |- context [if ?c then _ else _] => destruct c end;
    reflexivity.
Qed.

End TickTheorems.

(** A tick on [plan_along_x] with the footprint cost at the sentinel. *)
Lemma computeVelocityCommands_collision_witness :
  let tick :=
    computeVelocityCommands (Demo.env 255) Demo.robot Demo.speed
      (Demo.planner plan_along_x false None) in
  fst (fst tick) = Throws CollisionDetectedError /\
  optimizer_calls (snd tick) = [].
Proof.
  destruct (computeVelocityCommands_collision (Demo.env 255) Demo.robot
              Demo.speed (Demo.planner plan_along_x false None) eq_refl)
    as (Hnone & _ & Hthrow).
  split; [|exact Hnone].
  apply Hthrow. vm_compute. do 3 right. left. reflexivity.
Defined.

(** A tick in the slow regime (lookahead 0.5) on [plan_turning] with cost
    201: the carrot is the pose at 0.6 m, heading 0.5 rad. *)
Lemma reprobe_never_overrides_witness :
  exists carrot_pose,
    getLookAheadPoint (Demo.env 201) 0.5 window_turning = Some carrot_pose /\
    slow_down_
      (snd (fst (computeVelocityCommands (Demo.env 201) Demo.robot Demo.speed
                   (Demo.planner plan_turning true None)))) = false.
Proof.
  destruct (reprobe_never_overrides (Demo.env 201) Demo.robot Demo.speed
              (Demo.planner plan_turning true None)
              (trimmed (Demo.env 201)
                 (Demo.planner plan_turning true (Some ControlThread))
                 Demo.robot)
              window_turning
              (snd (transformGlobalPlan (Demo.env 201) Demo.robot
                      (Demo.planner plan_turning true (Some ControlThread))))
              eq_refl eq_refl)
    as (carrot_pose & Hcarrot & Hslow).
  exists carrot_pose. split; [exact Hcarrot|].
  apply Hslow.
  vm_compute in Hcarrot. injection Hcarrot as <-. reflexivity.
Defined.

(** ** The statement that sets the regime *)

(** The tick runs [update_slow_down_] between the footprint query and the
    collision test, on the lookahead distance, the window and the carrot it
    has selected. *)
Lemma computeVelocityCommands_body_regime (env : Env)
    (position : PoseStamped.t) (speed : Twist.t) :
  computeVelocityCommands_body env position speed =
    (transformed_plan <- transformGlobalPlan env position ;;
     this <- get ;;
     let lookahead_dist := getLookAheadDistance this speed in
     carrot_pose <-
       defined (getLookAheadPoint env lookahead_dist transformed_plan) ;;
     let pos := Pose.position (PoseStamped.pose position) in
     let theta := getYaw env (Pose.orientation (PoseStamped.pose position)) in
     emit (FootprintCost (Point.x pos) (Point.y pos) theta) ;;
     let footprint_cost :=
       footprintCostAtPose env (Point.x pos) (Point.y pos) theta in
     update_slow_down_ env lookahead_dist transformed_plan carrot_pose
       footprint_cost ;;
     if footprint_cost =? 255 then throw CollisionDetectedError else
     emit (PublishCarrot (createCarrotMsg carrot_pose)) ;;
     this <- get ;;
     let request := Request.mk speed carrot_pose (goal_pose this) position
         (closer_to_goal this) (1.0 / control_frequency this) in
     emit (OptimizerRequest request) ;;
     ret (optimizer env request)).
Proof. reflexivity. Qed.



(** ** Installing a plan *)

Section SetPlan.

Lemma last_skipn {B : Type} (l : list B) (i : nat) (d : B) :
  (i < List.length l)%nat -> last (skipn i l) d = last l d.
Proof.
  revert i. induction l as [|a rest IH]; intros i Hi; [cbn in Hi; lia|].
  destruct i as [|i]; [reflexivity|].
  cbn [skipn]. cbn [List.length] in Hi. rewrite IH by lia.
  destruct rest; [cbn in Hi; lia|reflexivity].
Qed.

(** Trimming the plan keeps its final pose, so the stored goal stays the
    final pose of the stored plan across [transformGlobalPlan]. *)
Lemma transformGlobalPlan_keeps_goal (env : Env) (pose : PoseStamped.t)
    (s : NeoMpcPlanner) :
  goal_is_final s ->
  goal_is_final (snd (fst (transformGlobalPlan env pose s))).
Proof.
  intros Hgoal.
  destruct (Path.poses (global_plan_ s)) as [|p0 rest] eqn:Hp.
  - now rewrite (transformGlobalPlan_empty env pose s Hp).
  - assert (Hne : Path.poses (global_plan_ s) <> []) by congruence.
    destruct (pose_in_frame env (Header.frame_id (Path.header (global_plan_ s)))
                pose) as [robot_pose|] eqn:Hrp.
    + destruct (transformGlobalPlan_run env pose robot_pose s Hne Hrp)
        as (ev & -> & _).
      unfold goal_is_final, trimmed in *.
      cbn [fst snd goal_pose global_plan_ set_global_plan_ set_closer_to_goal
           Path.poses].
      rewrite last_skipn; [assumption|]. now apply min_by_bound.
    + destruct (transformGlobalPlan_no_transform env pose s Hne Hrp)
        as (ev & -> & _). assumption.
Qed.

(** So does a whole tick, however it ends. *)
Lemma computeVelocityCommands_keeps_goal (env : Env) (position : PoseStamped.t)
    (speed : Twist.t) (s : NeoMpcPlanner) :
  goal_is_final s ->
  goal_is_final (snd (fst (computeVelocityCommands env position speed s))).
Proof.
  intros Hgoal. destruct (mutex_ s) as [th|] eqn:Hm.
  - now rewrite (computeVelocityCommands_locked env position speed s th Hm).
  - rewrite (computeVelocityCommands_unlocked env position speed s Hm).
    pose proof (transformGlobalPlan_keeps_goal env position
                  (set_mutex_ (Some ControlThread) s) Hgoal) as Hkeep.
    destruct (transformGlobalPlan_outcome env position
                (set_mutex_ (Some ControlThread) s))
      as (o & s1 & ev1 & Hrun & _ & Ho & _).
    rewrite Hrun in Hkeep. cbn [fst snd] in Hkeep.
    destruct o as [plan|e| |]; try contradiction.
    + destruct (computeVelocityCommands_body_run env position speed _ _ _ _ Hrun)
        as (carrot_pose & _ & ->).
      match goal with |- context [if ?c then _ else _] => destruct c end;
        exact Hkeep.
    + rewrite (computeVelocityCommands_body_throws env position speed _ _ _ _ Hrun).
      exact Hkeep.
Qed.

(** One run of [setPlan] on a non-empty plan. *)
Lemma setPlan_run (plan : Path.t) (s : NeoMpcPlanner) :
  Path.poses plan <> [] ->
  let final :=
    PoseStamped.pose (last (Path.poses plan) PoseStamped.default) in
  exists s',
    setPlan plan s = (Returns tt, s', []) /\
    global_plan_ s' = plan /\ goal_pose s' = final /\
    slow_down_ s' =
      (if Pose.eqb (goal_pose s) final then slow_down_ s else true) /\
    closer_to_goal s' = closer_to_goal s /\
    lookahead_dist_min_ s' = lookahead_dist_min_ s /\
    lookahead_dist_max_ s' = lookahead_dist_max_ s /\
    lookahead_dist_close_to_goal_ s' = lookahead_dist_close_to_goal_ s /\
    mutex_ s' = mutex_ s.
Proof.
  intros Hne final. unfold setPlan, bind, modify, get.
  rewrite (back_last (Path.poses plan)). fold final.
  destruct (Path.poses plan) as [|p0 rest] eqn:Hp; [congruence|].
  cbn [goal_pose set_global_plan_].
  destruct (Pose.eqb (goal_pose s) final) eqn:Heq; cbn;
    eexists; (split; [reflexivity|]); cbn; repeat split.
Qed.

(** After [setPlan] the stored goal is the final pose of the stored plan. *)
Lemma setPlan_goal_is_final (plan : Path.t) (s : NeoMpcPlanner) :
  Path.poses plan <> [] ->
  goal_is_final (snd (fst (setPlan plan s))).
Proof.
  intros Hne. destruct (setPlan_run plan s Hne) as (s' & -> & Hp & Hg & _).
  unfold goal_is_final. cbn [fst snd]. now rewrite Hp, Hg.
Qed.

(** C6. [setPlan] with a non-empty plan stores the plan and its final pose
    as the goal. When that final pose differs ([!=]) from the goal stored
    before, the regime flag [slow_down_] is forced on, whatever it was, and
    the next tick selects its lookahead distance with the flag on, whatever
    its heading and cost inputs will be (the min distance, unless the robot is
    close to the goal); when the final pose equals the stored goal,
    [slow_down_] is left as it was. The lookahead distances and the mutex are
    untouched. *)
Theorem setPlan_spec (plan : Path.t) (s : NeoMpcPlanner) :
  Path.poses plan <> [] ->
  let final :=
    PoseStamped.pose (last (Path.poses plan) PoseStamped.default) in
  exists s',
    setPlan plan s = (Returns tt, s', []) /\
    global_plan_ s' = plan /\
    goal_pose s' = final /\
    (Pose.eqb (goal_pose s) final = false ->
     slow_down_ s' = true /\
     forall env pose speed,
       let next := snd (fst (transformGlobalPlan env pose s')) in
       slow_down_ next = true /\
       getLookAheadDistance next speed =
         if closer_to_goal next then lookahead_dist_close_to_goal_ s
         else lookahead_dist_min_ s) /\
    (Pose.eqb (goal_pose s) final = true -> slow_down_ s' = slow_down_ s) /\
    closer_to_goal s' = closer_to_goal s /\
    lookahead_dist_min_ s' = lookahead_dist_min_ s /\
    lookahead_dist_max_ s' = lookahead_dist_max_ s /\
    lookahead_dist_close_to_goal_ s' = lookahead_dist_close_to_goal_ s /\
    mutex_ s' = mutex_ s.
Proof.
  intros Hne final.
  destruct (setPlan_run plan s Hne)
    as (s' & Hrun & Hplan & Hgoal & Hslow & Hnear & Hmin & Hmax & Hclose
        & Hmutex).
  fold final in Hgoal, Hslow.
  exists s'. split; [assumption|]. split; [assumption|].
  split; [assumption|]. split; [|split; [|auto 10]].
  - intros Hdiff. rewrite Hdiff in Hslow. split; [assumption|].
    intros env pose speed next. subst next.
    destruct (transformGlobalPlan_outcome env pose s')
      as (o & s1 & ev1 & -> & _ & _ & _ & Hs & Hmin1 & _ & Hclose1).
    cbn [fst snd]. rewrite Hslow in Hs. split; [assumption|].
    unfold getLookAheadDistance.
    rewrite Hs, Hmin1, Hclose1, Hmin, Hclose.
    destruct (closer_to_goal s1); reflexivity.
  - intros Heq. rewrite Hslow, Heq. reflexivity.
Qed.

End SetPlan.

(** A plan ending at (1, 0) installed over a goal at (2, 0) turns the slow
    regime on. *)
Lemma setPlan_spec_witness :
  exists s',
    setPlan (Path.mk (Header.mk 0%Z "map") [Demo.G 0 0; Demo.G 1 0])
      (Demo.planner plan_along_x false None) = (Returns tt, s', []) /\
    slow_down_ s' = true /\
    goal_pose s' = PoseStamped.pose (Demo.G 1 0).
Proof.
  destruct (setPlan_spec
              (Path.mk (Header.mk 0%Z "map") [Demo.G 0 0; Demo.G 1 0])
              (Demo.planner plan_along_x false None) ltac:(discriminate))
    as (s' & Hrun & _ & Hgoal & Hslow & _).
  exists s'. split; [exact Hrun|].
  split; [apply Hslow; reflexivity|exact Hgoal].
Defined.

(** ** The reconfiguration callback *)

Section Reconfiguration.

Lemma set_mutex_release (s : NeoMpcPlanner) (th : option Thread) :
  mutex_ s = None -> set_mutex_ None (set_mutex_ th s) = s.
Proof. destruct s; cbn. intros ->. reflexivity. Qed.

(** With the mutex held, by whichever thread, the loop stops at the first
    parameter that is not namespaced and changes nothing. *)
Lemma dynamicParameters_loop_locked (parameters : list RclParameter.t)
    (s : NeoMpcPlanner) (th : Thread) :
  mutex_ s = Some th ->
  dynamicParameters_loop parameters s =
    if forallb namespaced parameters
    then (Returns None, s, [])
    else (Returns (Some (SetParametersResult.mk false busy_message)), s,
          [LogWarn busy_message]).
Proof.
  intros Hm. induction parameters as [|p rest IH]; [reflexivity|].
  cbn [dynamicParameters_loop forallb]. unfold namespaced at 1.
  destruct (contains_char "." (RclParameter.get_name p)); [exact IH|].
  cbn [andb]. unfold bind at 1, try_lock. rewrite Hm. reflexivity.
Qed.

(** The callback itself holds the mutex (its [lock_guard]) when the loop
    tries to lock it. *)
Lemma dynamicParametersCallback_run (parameters : list RclParameter.t)
    (s : NeoMpcPlanner) :
  mutex_ s = None ->
  dynamicParametersCallback parameters s =
    if forallb namespaced parameters
    then (Returns (SetParametersResult.mk true EmptyString), s, [])
    else (Returns (SetParametersResult.mk false busy_message), s,
          [LogWarn busy_message]).
Proof.
  intros Hm. unfold dynamicParametersCallback, lock_guard. rewrite Hm.
  unfold bind.
  rewrite (dynamicParameters_loop_locked parameters
             (set_mutex_ (Some ParameterThread) s) ParameterThread eq_refl).
  destruct (forallb namespaced parameters); cbn;
    rewrite (set_mutex_release s _ Hm); reflexivity.
Qed.

Lemma dynamicParametersCallback_blocks (parameters : list RclParameter.t)
    (s : NeoMpcPlanner) (th : Thread) :
  mutex_ s = Some th ->
  dynamicParametersCallback parameters s = (Blocks, s, []).
Proof.
  intros Hm. unfold dynamicParametersCallback, lock_guard. now rewrite Hm.
Qed.

Lemma contains_char_app (c : ascii) (a b : string) :
  contains_char c (a ++ b)%string = contains_char c a || contains_char c b.
Proof.
  induction a as [|d a IH]; cbn; [reflexivity|].
  destruct (Ascii.eqb d c); [reflexivity|assumption].
Qed.

(** Every name [configure] declares contains the delimiter. *)
Lemma declared_names_are_namespaced (name : string) (p : RclParameter.t) :
  In (RclParameter.get_name p) (declared_parameter_names name) ->
  namespaced p = true.
Proof.
  unfold namespaced. intros [<-|[<-|[<-|[]]]];
    rewrite contains_char_app; cbn; apply orb_true_r.
Qed.

(** X19. So a batch of declared parameters is skipped whole: with the mutex
    free, whatever new values the batch holds for the names [configure]
    declared, the callback reports success and the controller is as before. *)
Lemma declared_batch_is_skipped (parameters : list RclParameter.t)
    (s : NeoMpcPlanner) :
  mutex_ s = None ->
  Forall (fun p => In (RclParameter.get_name p)
                      (declared_parameter_names (plugin_name_ s))) parameters ->
  dynamicParametersCallback parameters s =
    (Returns (SetParametersResult.mk true EmptyString), s, []).
Proof.
  intros Hm Hall. rewrite (dynamicParametersCallback_run parameters s Hm).
  replace (forallb namespaced parameters) with true; [reflexivity|].
  symmetry. apply forallb_forall. rewrite Forall_forall in Hall.
  intros p Hp. eapply declared_names_are_namespaced. now apply Hall.
Qed.

(** The callback never changes the controller: not one member, for any
    batch, whether the mutex is free or held. *)
Lemma dynamicParametersCallback_changes_nothing
    (parameters : list RclParameter.t) (s : NeoMpcPlanner) :
  snd (fst (dynamicParametersCallback parameters s)) = s.
Proof.
  destruct (mutex_ s) as [th|] eqn:Hm.
  - now rewrite (dynamicParametersCallback_blocks parameters s th Hm).
  - rewrite (dynamicParametersCallback_run parameters s Hm).
    destruct (forallb namespaced parameters); reflexivity.
Qed.

Variable env : Env.

(** A tick leaves the mutex free and the three lookahead distances as they
    were. *)
Lemma computeVelocityCommands_keeps_configuration (position : PoseStamped.t)
    (speed : Twist.t) (s : NeoMpcPlanner) :
  mutex_ s = None ->
  let s' := snd (fst (computeVelocityCommands env position speed s)) in
  mutex_ s' = None /\
  lookahead_dist_min_ s' = lookahead_dist_min_ s /\
  lookahead_dist_max_ s' = lookahead_dist_max_ s /\
  lookahead_dist_close_to_goal_ s' = lookahead_dist_close_to_goal_ s.
Proof.
  intros Hm s'. subst s'.
  rewrite (computeVelocityCommands_unlocked env position speed s Hm).
  destruct (transformGlobalPlan_outcome env position
              (set_mutex_ (Some ControlThread) s))
    as (o & s1 & ev1 & Hrun & _ & Ho & _ & _ & Hmin & Hmax & Hclose).
  cbn [lookahead_dist_min_ lookahead_dist_max_ lookahead_dist_close_to_goal_
       set_mutex_] in Hmin, Hmax, Hclose.
  destruct o as [plan|e| |]; try contradiction.
  - destruct (computeVelocityCommands_body_run env position speed _ _ _ _ Hrun)
      as (carrot_pose & _ & ->).
    match goal with |- context [if ?c then _ else _] => destruct c end;
      cbn; auto.
  - rewrite (computeVelocityCommands_body_throws env position speed _ _ _ _ Hrun).
    cbn. auto.
Qed.

End Reconfiguration.

(** C7, evaluated. A control tick holds the mutex and a batch with one double
    parameter whose name has no ['.'] is delivered. The callback reports no
    failure: its [lock_guard] waits for the mutex, so it has no result and has
    logged no warning, and the controller is as it was. *)
Theorem reconfiguration_waits_for_the_tick :
  let held := Demo.planner plan_along_x false (Some ControlThread) in
  let batch :=
    [RclParameter.mk "lookahead_dist_min" (RclParameter.DoubleValue 0.8)] in
  mutex_ held = Some ControlThread /\
  forallb namespaced batch = false /\
  dynamicParametersCallback batch held = (Blocks, held, []) /\
  (forall result,
     fst (fst (dynamicParametersCallback batch held)) <> Returns result).
Proof.
  cbv zeta. split; [reflexivity|]. split; [reflexivity|].
  split; [reflexivity|]. intros result. discriminate.
Qed.

(** C8, evaluated. With no tick running, the callback given the three
    parameters under the names [configure] declared them with reports success
    and leaves the three stored distances at 0.5, 1.0 and 0.3; so it does for
    the name without the ['.'], which is the one it compares with, where it
    reports failure. *)
Theorem declared_parameters_are_not_updated :
  let s := Demo.planner plan_along_x false None in
  let s' := snd (fst (dynamicParametersCallback declared_batch s)) in
  map RclParameter.get_name declared_batch
    = declared_parameter_names (plugin_name_ s) /\
  fst (fst (dynamicParametersCallback declared_batch s))
    = Returns (SetParametersResult.mk true EmptyString) /\
  lookahead_dist_min_ s' = 0.5 /\
  lookahead_dist_max_ s' = 1.0 /\
  lookahead_dist_close_to_goal_ s' = 0.3 /\
  dynamicParametersCallback
    [RclParameter.mk "FollowPathlookahead_dist_min"
       (RclParameter.DoubleValue 0.8)] s
    = (Returns (SetParametersResult.mk false busy_message), s,
       [LogWarn busy_message]).
Proof. vm_compute. repeat split. Qed.

(** * Further properties of the member functions *)

(** ** [transformPose] and the calls of [transformGlobalPlan] *)

Section WindowTrace.

Variable env : Env.

Lemma transformPose_exact (frame : string) (in_pose out_pose : PoseStamped.t)
    (s : NeoMpcPlanner) :
  transformPose env frame in_pose out_pose s =
    (Returns match pose_in_frame env frame in_pose with
             | Some p => (true, p)
             | None => (false, out_pose)
             end, s, transformPose_trace env frame in_pose).
Proof.
  unfold transformPose, pose_in_frame, transformPose_trace.
  destruct (String.eqb _ frame); [reflexivity|].
  destruct (tf_transform env in_pose frame); reflexivity.
Qed.

Lemma transformGlobalPoseToLocal_exact (ph rh : Header.t)
    (p : PoseStamped.t) (s : NeoMpcPlanner) :
  transformGlobalPoseToLocal env ph rh p s =
    (Returns (local_pose env ph rh p), s,
     transformPose_trace env (getBaseFrameID env) (stamped_plan_pose ph rh p)).
Proof.
  unfold transformGlobalPoseToLocal, bind. rewrite transformPose_exact.
  unfold local_pose, stamped_plan_pose.
  destruct (pose_in_frame env (getBaseFrameID env) _); cbn;
    rewrite app_nil_r; reflexivity.
Qed.

Lemma mapM_local_exact (ph rh : Header.t) (l : list PoseStamped.t)
    (s : NeoMpcPlanner) :
  mapM (transformGlobalPoseToLocal env ph rh) l s =
    (Returns (map (local_pose env ph rh) l), s,
     flat_map (fun p => transformPose_trace env (getBaseFrameID env)
                          (stamped_plan_pose ph rh p)) l).
Proof.
  induction l as [|p rest IH]; [reflexivity|].
  cbn [mapM map flat_map]. unfold bind at 1.
  rewrite transformGlobalPoseToLocal_exact. unfold bind at 1. rewrite IH.
  cbn. rewrite app_nil_r. reflexivity.
Qed.

(** The three ways a run of [transformGlobalPlan] goes, with the state it
    leaves and the calls it makes. *)
Lemma transformGlobalPlan_cases (pose : PoseStamped.t) (s : NeoMpcPlanner) :
  let poses := Path.poses (global_plan_ s) in
  let frame := Header.frame_id (Path.header (global_plan_ s)) in
  (poses = [] /\
   transformGlobalPlan env pose s = (Throws EmptyPlanError, s, []))
  \/
  (poses <> [] /\ pose_in_frame env frame pose = None /\
   transformGlobalPlan env pose s =
     (Throws TransformUnavailableError, s, transformPose_trace env frame pose))
  \/
  (poses <> [] /\ exists robot_pose,
     pose_in_frame env frame pose = Some robot_pose /\
     transformGlobalPlan env pose s =
       (match Path.poses (window env s robot_pose) with
        | [] => Throws EmptyWindowError
        | _ :: _ => Returns (window env s robot_pose)
        end, trimmed env s robot_pose, window_trace env s pose robot_pose)).
Proof.
  intros poses frame. subst poses frame.
  destruct (Path.poses (global_plan_ s)) as [|p0 rest] eqn:Hp.
  - left. split; [reflexivity|]. now apply transformGlobalPlan_empty.
  - right.
    destruct (pose_in_frame env (Header.frame_id (Path.header (global_plan_ s)))
                pose) as [robot_pose|] eqn:Hrp.
    + right. split; [discriminate|]. exists robot_pose. split; [reflexivity|].
      unfold transformGlobalPlan. unfold bind at 1, get.
      unfold window_trace, window, trimmed, near_goal, in_range_run,
        closest_index.
      rewrite <- (back_last (Path.poses (global_plan_ s))). rewrite Hp.
      unfold bind at 1. rewrite transformPose_exact, Hrp.
      cbn [fst snd negb]. cbn iota.
      set (near := _ <=? _). unfold bind at 1.
      replace ((if near then modify (set_closer_to_goal true)
                else modify (set_closer_to_goal false)) s)
        with (@Returns unit tt, set_closer_to_goal near s, @nil Event)
        by (destruct near; reflexivity).
      rewrite range_find_if. unfold bind at 1. rewrite mapM_local_exact.
      unfold bind, modify, emit.
      cbn [global_plan_ set_closer_to_goal Path.poses Path.header].
      rewrite Hp. unfold erase_prefix.
      match goal with |- context [map ?g ?l] => destruct (map g l) end;
        cbn; rewrite ?app_nil_r; reflexivity.
    + left. split; [discriminate|]. split; [reflexivity|].
      unfold transformGlobalPlan. unfold bind at 1, get. rewrite Hp.
      unfold bind at 1. rewrite transformPose_exact, Hrp.
      cbn. now rewrite app_nil_r.
Qed.

(** X1. [transformPose] always returns, without touching the controller.
    When it answers true the out-pose is stamped with the target frame; when
    it answers false the out-parameter is left as it was, tf having thrown,
    and one error is logged; a pose already in the target frame is copied
    without consulting tf at all. *)
Theorem transformPose_contract (frame : string)
    (in_pose out_pose : PoseStamped.t) (s : NeoMpcPlanner) :
  exists ok out ev,
    transformPose env frame in_pose out_pose s = (Returns (ok, out), s, ev) /\
    (ok = true -> Header.frame_id (PoseStamped.header out) = frame) /\
    (ok = false ->
     out = out_pose /\ tf_transform env in_pose frame = None /\
     ev = [TfTransform in_pose frame; LogError "Exception in transformPose"]) /\
    (Header.frame_id (PoseStamped.header in_pose) = frame ->
     ok = true /\ out = in_pose /\ ev = []).
Proof.
  rewrite transformPose_exact. unfold pose_in_frame, transformPose_trace.
  destruct (String.eqb (Header.frame_id (PoseStamped.header in_pose)) frame)
    eqn:Hf.
  - apply String.eqb_eq in Hf. do 3 eexists. split; [reflexivity|].
    repeat split; try assumption; try reflexivity; congruence.
  - assert (Hne : Header.frame_id (PoseStamped.header in_pose) <> frame)
      by (intros H; apply String.eqb_eq in H; congruence).
    destruct (tf_transform env in_pose frame) as [out|]; do 3 eexists;
      (split; [reflexivity|]); repeat split; try reflexivity; congruence.
Qed.

(** X2. [transformGlobalPlan] throws the transform exception exactly when the
    stored plan is not empty and the robot pose cannot be expressed in the
    frame of the plan; the controller is then left as it was: nothing is
    trimmed, the near-goal flag is not touched, and nothing is published (the
    only calls are the failed tf lookup and its error log). *)
Theorem transformGlobalPlan_transform_unavailable (pose : PoseStamped.t)
    (s : NeoMpcPlanner) :
  let poses := Path.poses (global_plan_ s) in
  let frame := Header.frame_id (Path.header (global_plan_ s)) in
  (fst (fst (transformGlobalPlan env pose s)) = Throws TransformUnavailableError
   <-> poses <> [] /\ pose_in_frame env frame pose = None) /\
  (fst (fst (transformGlobalPlan env pose s)) = Throws TransformUnavailableError ->
   transformGlobalPlan env pose s =
     (Throws TransformUnavailableError, s,
      [TfTransform pose frame; LogError "Exception in transformPose"])).
Proof.
  intros poses frame. subst poses frame.
  set (frame := Header.frame_id (Path.header (global_plan_ s))).
  assert (Htrace : pose_in_frame env frame pose = None ->
            transformPose_trace env frame pose =
              [TfTransform pose frame; LogError "Exception in transformPose"]).
  { unfold pose_in_frame, transformPose_trace.
    destruct (String.eqb _ frame); [discriminate|].
    destruct (tf_transform env pose frame); [discriminate|reflexivity]. }
  destruct (transformGlobalPlan_cases pose s)
    as [(H0 & Hrun)|[(Hne & Hrp & Hrun)|(Hne & rp & Hrp & Hrun)]];
    fold frame in Hrun; rewrite Hrun; cbn [fst].
  - split; [split; [discriminate|intros (H & _); congruence]|discriminate].
  - fold frame in Hrp. split; [split; auto|].
    intros _. now rewrite (Htrace Hrp).
  - fold frame in Hrp.
    assert (Hno : (match Path.poses (window env s rp) with
                   | [] => Throws EmptyWindowError
                   | _ :: _ => Returns (window env s rp)
                   end) <> Throws TransformUnavailableError)
      by (destruct (Path.poses (window env s rp)); discriminate).
    split; [split; [contradiction|intros (_ & H); congruence]|contradiction].
Qed.

(** X3. Whatever a run of [transformGlobalPlan] does, the stored plan only
    loses poses at its front: it keeps its header, it is a suffix of what it
    was, and a plan that was not empty is not emptied and keeps its final
    pose. *)
Theorem stored_plan_only_loses_a_prefix (pose : PoseStamped.t)
    (s : NeoMpcPlanner) :
  let poses := Path.poses (global_plan_ s) in
  let s' := snd (fst (transformGlobalPlan env pose s)) in
  Path.header (global_plan_ s') = Path.header (global_plan_ s) /\
  (exists n, Path.poses (global_plan_ s') = skipn n poses /\
             poses = firstn n poses ++ Path.poses (global_plan_ s')) /\
  (poses <> [] ->
   Path.poses (global_plan_ s') <> [] /\
   last (Path.poses (global_plan_ s')) PoseStamped.default
     = last poses PoseStamped.default).
Proof.
  intros poses s'. subst s'.
  assert (Hsame : Path.header (global_plan_ s) = Path.header (global_plan_ s) /\
    (exists n, poses = skipn n poses /\ poses = firstn n poses ++ poses) /\
    (poses <> [] -> poses <> [] /\
       last poses PoseStamped.default = last poses PoseStamped.default)).
  { split; [reflexivity|]. split; [exists 0%nat; split; reflexivity|auto]. }
  destruct (transformGlobalPlan_cases pose s)
    as [(H0 & Hrun)|[(Hne & Hrp & Hrun)|(Hne & rp & Hrp & Hrun)]];
    rewrite Hrun; cbn [fst snd]; try exact Hsame.
  unfold trimmed. cbn [global_plan_ set_global_plan_ Path.header Path.poses].
  fold poses. set (i := closest_index env poses rp).
  assert (Hi : (i < List.length poses)%nat) by (apply min_by_bound; exact Hne).
  split; [reflexivity|]. split.
  - exists i. split; [reflexivity|]. symmetry. apply firstn_skipn.
  - intros _. split.
    + intros Hnil. apply (f_equal (@List.length _)) in Hnil.
      rewrite length_skipn in Hnil. cbn in Hnil. lia.
    + now apply last_skipn.
Qed.

(** X4. The empty-window exception is thrown after the work is done: the
    stored plan has already been trimmed to start at the closest pose, the
    near-goal flag has been updated, and the (empty) window has been
    published. *)
Theorem empty_window_leaves_the_plan_trimmed (pose : PoseStamped.t)
    (s : NeoMpcPlanner) :
  fst (fst (transformGlobalPlan env pose s)) = Throws EmptyWindowError ->
  exists robot_pose,
    pose_in_frame env (Header.frame_id (Path.header (global_plan_ s))) pose
      = Some robot_pose /\
    snd (fst (transformGlobalPlan env pose s)) = trimmed env s robot_pose /\
    snd (transformGlobalPlan env pose s) =
      transformPose_trace env (Header.frame_id (Path.header (global_plan_ s)))
        pose ++
      [PublishPath
         (Path.mk
            (Header.mk (Header.stamp (PoseStamped.header robot_pose))
                       (getBaseFrameID env)) [])].
Proof.
  destruct (transformGlobalPlan_cases pose s)
    as [(H0 & Hrun)|[(Hne & Hrp & Hrun)|(Hne & rp & Hrp & Hrun)]];
    rewrite Hrun; cbn [fst snd]; try discriminate.
  intros Hthrow. exists rp. split; [assumption|]. split; [reflexivity|].
  unfold window_trace, window in *. cbn [Path.poses] in Hthrow.
  destruct (in_range_run env (Path.poses (global_plan_ s)) rp) eqn:Hr;
    [reflexivity|discriminate].
Qed.

End WindowTrace.

(** Scenario B again: the plan [(2,0); (3,0)] is out of range; the closest
    pose is already the first, the flag is cleared and the empty window is
    published. *)
Lemma empty_window_leaves_the_plan_trimmed_witness :
  snd (transformGlobalPlan (Demo.env 0) Demo.robot
         (Demo.planner [Demo.G 2 0; Demo.G 3 0] false None))
    = [PublishPath (Path.mk (Header.mk 7%Z "base_link") [])].
Proof.
  destruct (empty_window_leaves_the_plan_trimmed (Demo.env 0) Demo.robot
              (Demo.planner [Demo.G 2 0; Demo.G 3 0] false None) eq_refl)
    as (rp & Hrp & _ & Htrace).
  rewrite Htrace. vm_compute in Hrp. injection Hrp as <-. reflexivity.
Defined.

(** ** More on the plan window *)

Section WindowEdges.

Variable env : Env.

Lemma min_by_loop_no_update {B : Type} (f : B -> float) (l : list B)
    (it : nat) (lowest : float) (lowest_it : nat) :
  (forall q, In q l -> (f q <? lowest) = false) ->
  min_by_loop f l it lowest lowest_it = lowest_it.
Proof.
  revert it. induction l as [|a rest IH]; intros it H; [reflexivity|].
  cbn [min_by_loop]. rewrite (H a (or_introl eq_refl)).
  apply IH. intros q Hq. apply H. now right.
Qed.

Lemma euclidean_distance_pose (r a b : PoseStamped.t) :
  PoseStamped.pose a = PoseStamped.pose b ->
  euclidean_distance env r a = euclidean_distance env r b.
Proof. unfold euclidean_distance. now intros ->. Qed.

Lemma last_In {B : Type} (l : list B) (d : B) : l <> [] -> In (last l d) l.
Proof.
  induction l as [|a [|b rest] IH]; intros H; [congruence|left; reflexivity|].
  right. apply IH. discriminate.
Qed.

Lemma flat_map_nil {B C : Type} (f : B -> list C) (l : list B) :
  (forall a, In a l -> f a = []) -> flat_map f l = [].
Proof.
  induction l as [|a rest IH]; intros H; [reflexivity|].
  cbn [flat_map]. rewrite (H a (or_introl eq_refl)). apply IH.
  intros b Hb. apply H. now right.
Qed.

Lemma getLookAheadPoint_In (d : float) (plan : Path.t) (p : PoseStamped.t) :
  getLookAheadPoint env d plan = Some p -> In p (Path.poses plan).
Proof.
  unfold getLookAheadPoint. destruct (Nat.eqb (List.length _) 0); [discriminate|].
  apply nth_error_In.
Qed.

(** X5. Trimming is idempotent: with comparable (non-NaN) distances, a second
    run of [transformGlobalPlan] at the same robot pose ends as the first did,
    returns the same window, makes the same calls and leaves the stored plan
    as the first run left it. *)
Theorem transformGlobalPlan_idempotent (pose robot_pose : PoseStamped.t)
    (s : NeoMpcPlanner) :
  Path.poses (global_plan_ s) <> [] ->
  pose_in_frame env (Header.frame_id (Path.header (global_plan_ s))) pose
    = Some robot_pose ->
  (forall q, In q (Path.poses (global_plan_ s)) ->
             is_nan (euclidean_distance env robot_pose q) = false) ->
  transformGlobalPlan env pose (snd (fst (transformGlobalPlan env pose s)))
    = transformGlobalPlan env pose s.
Proof.
  intros Hne Hrp Hnn.
  set (poses := Path.poses (global_plan_ s)) in *.
  set (dist := euclidean_distance env robot_pose) in *.
  destruct (min_by_spec dist poses Hne Hnn) as (c & Hnth & Hle & _).
  change (min_by poses dist) with (closest_index env poses robot_pose) in Hnth.
  set (i := closest_index env poses robot_pose) in *.
  pose proof (skipn_nth_error poses i c Hnth) as Hskip.
  assert (Hi : (i < List.length poses)%nat)
    by (apply nth_error_Some; congruence).
  assert (Hzero : closest_index env (skipn i poses) robot_pose = 0%nat).
  { unfold closest_index. rewrite Hskip. cbn [min_by].
    apply min_by_loop_no_update. intros q Hq.
    apply DoubleFacts.leb_ltb_false. apply Hle.
    rewrite <- (firstn_skipn (S i) poses). apply in_or_app. now right. }
  destruct (transformGlobalPlan_cases env pose s)
    as [(H0 & _)|[(_ & Hrp' & _)|(_ & rp & Hrp' & Hrun)]];
    [contradiction|congruence|].
  rewrite Hrp in Hrp'. injection Hrp' as <-.
  rewrite Hrun. cbn [fst snd].
  assert (Hplan : Path.poses (global_plan_ (trimmed env s robot_pose))
                  = skipn i poses) by reflexivity.
  assert (Hhdr : Path.header (global_plan_ (trimmed env s robot_pose))
                 = Path.header (global_plan_ s)) by reflexivity.
  assert (Hrun_eq : in_range_run env (skipn i poses) robot_pose
                    = in_range_run env poses robot_pose).
  { unfold in_range_run at 1. rewrite Hzero. reflexivity. }
  assert (Hwin : window env (trimmed env s robot_pose) robot_pose
                 = window env s robot_pose).
  { unfold window. rewrite Hplan, Hhdr, Hrun_eq. reflexivity. }
  assert (Hnear : near_goal env (trimmed env s robot_pose) robot_pose
                  = near_goal env s robot_pose).
  { unfold near_goal. rewrite Hplan, Hhdr.
    cbn [lookahead_dist_close_to_goal_ trimmed set_global_plan_
         set_closer_to_goal].
    fold poses. now rewrite (last_skipn poses i _ Hi). }
  assert (Htrim : trimmed env (trimmed env s robot_pose) robot_pose
                  = trimmed env s robot_pose).
  { unfold trimmed at 1. rewrite Hplan, Hhdr, Hzero, Hnear. reflexivity. }
  assert (Htrace : window_trace env (trimmed env s robot_pose) pose robot_pose
                   = window_trace env s pose robot_pose).
  { unfold window_trace. rewrite Hplan, Hhdr, Hrun_eq, Hwin. reflexivity. }
  destruct (transformGlobalPlan_cases env pose (trimmed env s robot_pose))
    as [(H0 & _)|[(_ & Hrp' & _)|(_ & rp & Hrp' & Hrun')]].
  - rewrite Hplan, Hskip in H0. discriminate.
  - rewrite Hhdr in Hrp'. congruence.
  - rewrite Hhdr, Hrp in Hrp'. injection Hrp' as <-.
    rewrite Hrun', Hwin, Htrim, Htrace. reflexivity.
Qed.

(** X6. When every distance from the robot to the plan is NaN (a robot
    position that is not a number), nothing is recognised as closest or as
    out of range: no pose is trimmed, the whole plan is returned as the
    window, and the near-goal flag is cleared. *)
Theorem nan_distances_keep_the_whole_plan (pose robot_pose : PoseStamped.t)
    (s : NeoMpcPlanner) :
  let poses := Path.poses (global_plan_ s) in
  poses <> [] ->
  pose_in_frame env (Header.frame_id (Path.header (global_plan_ s))) pose
    = Some robot_pose ->
  (forall q, In q poses ->
             is_nan (euclidean_distance env robot_pose q) = true) ->
  let s' := snd (fst (transformGlobalPlan env pose s)) in
  fst (fst (transformGlobalPlan env pose s)) =
    Returns
      (Path.mk
         (Header.mk (Header.stamp (PoseStamped.header robot_pose))
                    (getBaseFrameID env))
         (map (local_pose env (Path.header (global_plan_ s))
                 (PoseStamped.header robot_pose)) poses)) /\
  Path.poses (global_plan_ s') = poses /\
  closer_to_goal s' = false.
Proof.
  intros poses Hne Hrp Hnan s'. subst s'.
  assert (Hzero : closest_index env poses robot_pose = 0%nat).
  { unfold closest_index. destruct poses as [|p0 rest]; [congruence|].
    cbn [min_by]. apply min_by_loop_no_update. intros q Hq.
    exact (proj1 (DoubleFacts.nan_compares_false _ _
                    (Hnan q (or_intror Hq)))). }
  assert (Hrun_all : in_range_run env poses robot_pose = poses).
  { unfold in_range_run. rewrite Hzero. cbn [skipn].
    apply before_first_all. apply Forall_forall. intros q Hq.
    unfold outside_costmap, Double.gtb.
    exact (proj1 (proj2 (DoubleFacts.nan_compares_false _
                           (max_transform_dist env) (Hnan q Hq)))). }
  assert (Hnear : near_goal env s robot_pose = false).
  { unfold near_goal. fold poses.
    rewrite (euclidean_distance_pose robot_pose
               (PoseStamped.mk (Path.header (global_plan_ s))
                  (PoseStamped.pose (last poses PoseStamped.default)))
               (last poses PoseStamped.default) eq_refl).
    exact (proj1 (proj2 (proj2 (DoubleFacts.nan_compares_false _ _
             (Hnan _ (last_In poses PoseStamped.default Hne)))))). }
  destruct (transformGlobalPlan_cases env pose s)
    as [(H0 & _)|[(_ & Hrp' & _)|(_ & rp & Hrp' & Hrun)]];
    [contradiction|congruence|].
  rewrite Hrp in Hrp'. injection Hrp' as <-.
  rewrite Hrun. cbn [fst snd]. unfold window, trimmed. fold poses.
  rewrite Hrun_all, Hzero, Hnear. cbn [Path.poses].
  destruct poses as [|p0 rest]; [congruence|]. repeat split.
Qed.

(** X7. When the robot pose, the plan and the base frame share one frame,
    [transformGlobalPlan] never consults tf: its only call is the publication
    of the window, and the window poses are the plan poses of the in-range
    run, pose for pose, stamped with the time of the robot pose. *)
Theorem same_frame_needs_no_tf (pose : PoseStamped.t) (s : NeoMpcPlanner) :
  let poses := Path.poses (global_plan_ s) in
  let frame := Header.frame_id (Path.header (global_plan_ s)) in
  poses <> [] ->
  Header.frame_id (PoseStamped.header pose) = frame ->
  frame = getBaseFrameID env ->
  snd (transformGlobalPlan env pose s) = [PublishPath (window env s pose)] /\
  Path.poses (window env s pose) =
    map (fun p =>
           PoseStamped.mk
             (Header.mk (Header.stamp (PoseStamped.header pose)) frame)
             (PoseStamped.pose p))
        (in_range_run env poses pose).
Proof.
  intros poses frame Hne Hrobot Hbase. subst poses.
  assert (Hrp : pose_in_frame env frame pose = Some pose).
  { unfold pose_in_frame. rewrite Hrobot, String.eqb_refl. reflexivity. }
  assert (Hlocal : forall p,
            pose_in_frame env (getBaseFrameID env)
              (stamped_plan_pose (Path.header (global_plan_ s))
                 (PoseStamped.header pose) p)
            = Some (stamped_plan_pose (Path.header (global_plan_ s))
                      (PoseStamped.header pose) p)).
  { intros p. unfold pose_in_frame, stamped_plan_pose.
    cbn [PoseStamped.header Header.frame_id]. fold frame.
    rewrite <- Hbase, String.eqb_refl. reflexivity. }
  destruct (transformGlobalPlan_cases env pose s)
    as [(H0 & _)|[(_ & Hrp' & _)|(_ & rp & Hrp' & Hrun)]];
    [contradiction|fold frame in Hrp'; congruence|].
  fold frame in Hrp'. rewrite Hrp in Hrp'. injection Hrp' as <-.
  rewrite Hrun. cbn [snd]. split.
  - unfold window_trace, transformPose_trace. fold frame.
    rewrite Hrobot, String.eqb_refl. cbn [app].
    rewrite flat_map_nil; [reflexivity|]. intros p _.
    cbn [stamped_plan_pose PoseStamped.header Header.frame_id]. fold frame.
    rewrite <- Hbase, String.eqb_refl. reflexivity.
  - unfold window. cbn [Path.poses]. apply map_ext. intros p.
    unfold local_pose. fold (stamped_plan_pose (Path.header (global_plan_ s))
                               (PoseStamped.header pose) p).
    rewrite Hlocal. reflexivity.
Qed.

(** X8. A tf failure on the poses of the window is not an error. With the
    plan in a frame other than the base frame and tf unable to relate them,
    [transformGlobalPlan] still returns a window with one pose per pose of the
    in-range run, each of them the default-constructed pose; whatever the
    lookahead distance, the carrot selected from such a window is that
    default pose. *)
Theorem tf_failure_yields_default_poses (pose : PoseStamped.t)
    (s : NeoMpcPlanner) :
  let poses := Path.poses (global_plan_ s) in
  let frame := Header.frame_id (Path.header (global_plan_ s)) in
  let run := in_range_run env poses pose in
  let defaults :=
    Path.mk (Header.mk (Header.stamp (PoseStamped.header pose))
                       (getBaseFrameID env))
            (repeat PoseStamped.default (List.length run)) in
  poses <> [] ->
  Header.frame_id (PoseStamped.header pose) = frame ->
  frame <> getBaseFrameID env ->
  (forall p, tf_transform env p (getBaseFrameID env) = None) ->
  fst (fst (transformGlobalPlan env pose s)) =
    match run with
    | [] => Throws EmptyWindowError
    | _ :: _ => Returns defaults
    end /\
  (run <> [] ->
   forall d, getLookAheadPoint env d defaults = Some PoseStamped.default).
Proof.
  intros poses frame run defaults Hne Hrobot Hbase Htf. subst poses.
  assert (Hrp : pose_in_frame env frame pose = Some pose).
  { unfold pose_in_frame. rewrite Hrobot, String.eqb_refl. reflexivity. }
  assert (Hlocal : forall p,
            local_pose env (Path.header (global_plan_ s))
              (PoseStamped.header pose) p = PoseStamped.default).
  { intros p. unfold local_pose, pose_in_frame.
    cbn [PoseStamped.header Header.frame_id]. fold frame.
    replace (String.eqb frame (getBaseFrameID env)) with false
      by (symmetry; apply String.eqb_neq; exact Hbase).
    now rewrite Htf. }
  assert (Hwin : window env s pose = defaults).
  { unfold window, defaults. f_equal. fold run.
    rewrite <- map_const. apply map_ext. intros p. apply Hlocal. }
  split.
  - destruct (transformGlobalPlan_cases env pose s)
      as [(H0 & _)|[(_ & Hrp' & _)|(_ & rp & Hrp' & Hrun)]];
      [contradiction|fold frame in Hrp'; congruence|].
    fold frame in Hrp'. rewrite Hrp in Hrp'. injection Hrp' as <-.
    rewrite Hrun, Hwin. cbn [fst]. unfold defaults. cbn [Path.poses].
    destruct run; reflexivity.
  - intros Hrun d.
    assert (Hd : Path.poses defaults <> []).
    { unfold defaults. cbn [Path.poses]. destruct run; [congruence|].
      discriminate. }
    destruct (getLookAheadPoint_defined env d defaults Hd) as (p & Hp).
    rewrite Hp. f_equal.
    apply getLookAheadPoint_In in Hp. unfold defaults in Hp.
    cbn [Path.poses] in Hp. now apply repeat_spec in Hp.
Qed.

End WindowEdges.

(** A second run on [plan_along_x] from the same robot pose. *)
Lemma transformGlobalPlan_idempotent_witness :
  let s := Demo.planner plan_along_x false None in
  transformGlobalPlan (Demo.env 0) Demo.robot
    (snd (fst (transformGlobalPlan (Demo.env 0) Demo.robot s)))
  = transformGlobalPlan (Demo.env 0) Demo.robot s.
Proof.
  apply (transformGlobalPlan_idempotent (Demo.env 0) Demo.robot Demo.robot
           (Demo.planner plan_along_x false None)).
  - discriminate.
  - reflexivity.
  - intros q [<-|[<-|[<-|[<-|[]]]]]; reflexivity.
Defined.

(** [plan_along_x] seen from [robot_nan]: all four poses stay. *)
Lemma nan_distances_keep_the_whole_plan_witness :
  let s := Demo.planner plan_along_x false None in
  let s' := snd (fst (transformGlobalPlan (Demo.env 0) robot_nan s)) in
  Path.poses (global_plan_ s') = plan_along_x /\ closer_to_goal s' = false.
Proof.
  refine (proj2 (nan_distances_keep_the_whole_plan (Demo.env 0) robot_nan
                   robot_nan (Demo.planner plan_along_x false None) _ _ _)).
  - discriminate.
  - reflexivity.
  - intros q [<-|[<-|[<-|[<-|[]]]]]; reflexivity.
Defined.

(** A plan given in the base frame, the robot pose too. *)
Lemma same_frame_needs_no_tf_witness :
  let s := planner_in_base [Demo.P0; Demo.P1; Demo.P2] in
  snd (transformGlobalPlan (Demo.env 0) robot_base s)
    = [PublishPath (window (Demo.env 0) s robot_base)].
Proof.
  refine (proj1 (same_frame_needs_no_tf (Demo.env 0) robot_base
                   (planner_in_base [Demo.P0; Demo.P1; Demo.P2]) _ _ _)).
  - discriminate.
  - reflexivity.
  - reflexivity.
Defined.

(** [plan_along_x] with tf unable to relate map and base_link: the window
    holds two default poses. *)
Lemma tf_failure_yields_default_poses_witness :
  fst (fst (transformGlobalPlan (Demo.env_no_tf 0) Demo.robot
              (Demo.planner plan_along_x false None)))
    = Returns (Path.mk (Header.mk 7%Z "base_link")
                 [PoseStamped.default; PoseStamped.default]).
Proof.
  refine (proj1 (tf_failure_yields_default_poses (Demo.env_no_tf 0) Demo.robot
                   (Demo.planner plan_along_x false None) _ _ _ _)).
  - discriminate.
  - reflexivity.
  - discriminate.
  - reflexivity.
Defined.

(** ** More on the lookahead selector *)

Section LookaheadOrder.

Variable env : Env.

Lemma before_first_length {B : Type} (pred : B -> bool) (l : list B) :
  (List.length (before_first pred l) <= List.length l)%nat.
Proof.
  induction l as [|a rest IH]; cbn; [lia|]. destruct (pred a); cbn; lia.
Qed.

Lemma before_first_mono {B : Type} (p1 p2 : B -> bool) (l : list B) :
  (forall a, p1 a = false -> p2 a = false) ->
  (List.length (before_first p1 l) <= List.length (before_first p2 l))%nat.
Proof.
  intros H. induction l as [|a rest IH]; cbn; [lia|].
  destruct (p1 a) eqn:H1; cbn; [lia|]. rewrite (H a H1). cbn. lia.
Qed.

Lemma getLookAheadPoint_index (d : float) (plan : Path.t) :
  Path.poses plan <> [] ->
  getLookAheadPoint env d plan =
    nth_error (Path.poses plan) (carrot_index env d plan).
Proof.
  intros Hne. unfold getLookAheadPoint, carrot_index.
  replace (Nat.eqb (List.length (Path.poses plan)) 0) with false;
    [reflexivity|].
  symmetry. apply Nat.eqb_neq. destruct (Path.poses plan); cbn; congruence.
Qed.

(** X9. A longer lookahead never selects an earlier pose: for lookahead
    distances [d1 <= d2] the pose [getLookAheadPoint] returns for [d1] stands
    in the path at or before the one it returns for [d2]. *)
Theorem longer_lookahead_selects_later_pose (d1 d2 : float) (plan : Path.t) :
  Path.poses plan <> [] ->
  (d1 <=? d2) = true ->
  getLookAheadPoint env d1 plan =
    nth_error (Path.poses plan) (carrot_index env d1 plan) /\
  getLookAheadPoint env d2 plan =
    nth_error (Path.poses plan) (carrot_index env d2 plan) /\
  (carrot_index env d1 plan <= carrot_index env d2 plan)%nat.
Proof.
  intros Hne Hle. split; [now apply getLookAheadPoint_index|].
  split; [now apply getLookAheadPoint_index|].
  unfold carrot_index, find_if. cbn [skipn]. rewrite !find_if_loop_spec.
  cbn [Nat.add].
  pose proof (before_first_mono (far_enough env d1) (far_enough env d2)
                (Path.poses plan)) as Hmono.
  assert (Hfar : forall a, far_enough env d1 a = false ->
                           far_enough env d2 a = false).
  { intros a H1. unfold far_enough, Double.geb in *.
    destruct (d2 <=? _) eqn:H2; [|reflexivity].
    rewrite (DoubleFacts.leb_trans _ _ _ Hle H2) in H1. discriminate. }
  specialize (Hmono Hfar).
  pose proof (before_first_length (far_enough env d1) (Path.poses plan)).
  pose proof (before_first_length (far_enough env d2) (Path.poses plan)).
  repeat match goal with
  | |- context [Nat.eqb ?a ?b] => destruct (Nat.eqb_spec a b)
  end; lia.
Qed.

End LookaheadOrder.

(** Scenario A with the lookahead distances 1.0 and 2.0: the carrots are P1
    (index 1) and P2 (index 2). *)
Lemma longer_lookahead_selects_later_pose_witness :
  let plan := Demo.path [Demo.P0; Demo.P1; Demo.P2] in
  getLookAheadPoint (Demo.env 0) 1.0 plan = Some Demo.P1 /\
  getLookAheadPoint (Demo.env 0) 2.0 plan = Some Demo.P2 /\
  (carrot_index (Demo.env 0) 1.0 plan <= carrot_index (Demo.env 0) 2.0 plan)%nat.
Proof.
  exact (longer_lookahead_selects_later_pose (Demo.env 0) 1.0 2.0
           (Demo.path [Demo.P0; Demo.P1; Demo.P2])
           ltac:(discriminate) eq_refl).
Defined.

(** ** More on the control tick *)

Section TickStructure.

Variable env : Env.

(** What [transformGlobalPlan] leaves alone. *)
Lemma transformGlobalPlan_keeps (pose : PoseStamped.t) (s : NeoMpcPlanner) :
  let s' := snd (fst (transformGlobalPlan env pose s)) in
  goal_pose s' = goal_pose s /\
  slow_down_ s' = slow_down_ s /\
  lookahead_dist_min_ s' = lookahead_dist_min_ s /\
  lookahead_dist_max_ s' = lookahead_dist_max_ s /\
  lookahead_dist_close_to_goal_ s' = lookahead_dist_close_to_goal_ s /\
  control_frequency s' = control_frequency s /\
  plugin_name_ s' = plugin_name_ s /\
  mutex_ s' = mutex_ s /\
  Path.header (global_plan_ s') = Path.header (global_plan_ s).
Proof.
  intros s'. subst s'.
  destruct (transformGlobalPlan_cases env pose s)
    as [(_ & ->)|[(_ & _ & ->)|(_ & rp & _ & ->)]];
    cbn; repeat split.
Qed.

Lemma transformGlobalPlan_unavailable_exact (pose : PoseStamped.t)
    (s : NeoMpcPlanner) :
  Path.poses (global_plan_ s) <> [] ->
  pose_in_frame env (Header.frame_id (Path.header (global_plan_ s))) pose
    = None ->
  transformGlobalPlan env pose s =
    (Throws TransformUnavailableError, s,
     [TfTransform pose (Header.frame_id (Path.header (global_plan_ s)));
      LogError "Exception in transformPose"]).
Proof.
  intros Hne Hrp.
  destruct (transformGlobalPlan_cases env pose s)
    as [(H0 & _)|[(_ & _ & ->)|(_ & rp & Hrp' & _)]];
    [contradiction| |congruence].
  f_equal. unfold pose_in_frame in Hrp. unfold transformPose_trace.
  destruct (String.eqb _ _); [discriminate|].
  destruct (tf_transform env pose _); [discriminate|reflexivity].
Qed.

(** The two ways a tick that holds the lock goes: the window stage throws
    and the tick throws the same, or the window stage returns a window, a
    carrot is selected, the regime flag is set, and the footprint cost decides
    between the collision exception and the request to the optimizer. *)
Lemma computeVelocityCommands_cases (position : PoseStamped.t)
    (speed : Twist.t) (s : NeoMpcPlanner) :
  mutex_ s = None ->
  let locked := set_mutex_ (Some ControlThread) s in
  let pos := Pose.position (PoseStamped.pose position) in
  let theta := getYaw env (Pose.orientation (PoseStamped.pose position)) in
  let footprint_cost :=
    footprintCostAtPose env (Point.x pos) (Point.y pos) theta in
  (exists e s1 ev1,
     transformGlobalPlan env position locked = (Throws e, s1, ev1) /\
     e <> CollisionDetectedError /\ Forall window_event ev1 /\
     computeVelocityCommands env position speed s
       = (Throws e, set_mutex_ None s1, ev1))
  \/
  (exists plan s1 ev1 carrot_pose,
     transformGlobalPlan env position locked = (Returns plan, s1, ev1) /\
     Forall window_event ev1 /\
     getLookAheadPoint env (getLookAheadDistance s1 speed) plan
       = Some carrot_pose /\
     let carrot_yaw :=
       abs (createYawFromQuat env
              (Pose.orientation (PoseStamped.pose carrot_pose))) in
     let s2 := set_slow_down_ (slow_down_after carrot_yaw footprint_cost) s1 in
     let request :=
       Request.mk speed carrot_pose (goal_pose s2) position
         (closer_to_goal s2) (1.0 / control_frequency s2) in
     computeVelocityCommands env position speed s =
       if footprint_cost =? 255
       then (Throws CollisionDetectedError, set_mutex_ None s2,
             ev1 ++ [FootprintCost (Point.x pos) (Point.y pos) theta])
       else (Returns (optimizer env request), set_mutex_ None s2,
             ev1 ++ [FootprintCost (Point.x pos) (Point.y pos) theta;
                     PublishCarrot (createCarrotMsg carrot_pose);
                     OptimizerRequest request])).
Proof.
  intros Hm locked pos theta footprint_cost.
  rewrite (computeVelocityCommands_unlocked env position speed s Hm).
  fold locked.
  destruct (transformGlobalPlan_outcome env position locked)
    as (o & s1 & ev1 & Hrun & Hev & Ho & _).
  destruct o as [plan|e| |]; try contradiction.
  - right.
    destruct (computeVelocityCommands_body_run env position speed _ _ _ _ Hrun)
      as (carrot_pose & Hcarrot & Hbody).
    exists plan, s1, ev1, carrot_pose. repeat split; try assumption.
    intros carrot_yaw s2 request. rewrite Hbody.
    fold pos theta footprint_cost carrot_yaw.
    destruct (footprint_cost =? 255); reflexivity.
  - left. exists e, s1, ev1. repeat split; try assumption.
    now rewrite (computeVelocityCommands_body_throws env position speed
                   _ _ _ _ Hrun).
Qed.

(** X10. How far a tick gets. With the mutex held it waits for it, touching
    nothing. With the mutex free: when the window stage throws, the tick
    throws the same, with the mutex released and no request made; when the
    window stage returns and the footprint cost is 255, the tick throws the
    collision exception, with the mutex released and no request made; when
    the window stage returns and the cost is not 255, the tick publishes the
    carrot and sends one request to the optimizer, as its last two calls
    (what the optimizer answers, and whether it does, is not part of this
    statement). *)
Theorem computeVelocityCommands_outcome (position : PoseStamped.t)
    (speed : Twist.t) (s : NeoMpcPlanner) :
  let tick := computeVelocityCommands env position speed s in
  let window_stage :=
    transformGlobalPlan env position (set_mutex_ (Some ControlThread) s) in
  let stage := fst (fst window_stage) in
  let pos := Pose.position (PoseStamped.pose position) in
  let theta := getYaw env (Pose.orientation (PoseStamped.pose position)) in
  let footprint_cost :=
    footprintCostAtPose env (Point.x pos) (Point.y pos) theta in
  (mutex_ s <> None -> tick = (Blocks, s, [])) /\
  (mutex_ s = None ->
   (forall e, stage = Throws e ->
      fst (fst tick) = Throws e /\
      mutex_ (snd (fst tick)) = None /\
      optimizer_calls (snd tick) = []) /\
   (forall plan, stage = Returns plan ->
      ((footprint_cost =? 255) = true ->
       fst (fst tick) = Throws CollisionDetectedError /\
       mutex_ (snd (fst tick)) = None /\
       optimizer_calls (snd tick) = []) /\
      ((footprint_cost =? 255) = false ->
       exists request before,
         snd tick =
           before ++
             [PublishCarrot (createCarrotMsg (Request.carrot_pose request));
              OptimizerRequest request] /\
         optimizer_calls before = [] /\
         getLookAheadPoint env
           (getLookAheadDistance (snd (fst window_stage)) speed) plan
           = Some (Request.carrot_pose request)))).
Proof.
  intros tick window_stage stage pos theta footprint_cost.
  subst tick stage window_stage. split.
  - intros Hm. destruct (mutex_ s) as [th|] eqn:Hth; [|congruence].
    now apply computeVelocityCommands_locked with (th := th).
  - intros Hm.
    destruct (computeVelocityCommands_cases position speed s Hm)
      as [(e & s1 & ev1 & Hrun & He & Hev & Htick)
         |(plan & s1 & ev1 & carrot & Hrun & Hev & Hcarrot & Htick)];
      fold pos theta footprint_cost in Htick; rewrite Hrun;
      cbn [fst snd].
    + rewrite Htick. cbn [fst snd]. split.
      * intros e' He'. injection He' as <-.
        split; [reflexivity|]. split; [reflexivity|].
        now apply window_events_no_optimizer.
      * intros plan Hc. discriminate Hc.
    + cbn zeta in Htick. rewrite Htick. split.
      * intros e He. discriminate He.
      * intros plan' Hplan. injection Hplan as <-.
        destruct (footprint_cost =? 255); cbn [fst snd]; split; intros Hc;
          try discriminate Hc.
        -- split; [reflexivity|]. split; [reflexivity|].
           rewrite optimizer_calls_app, (window_events_no_optimizer _ Hev).
           reflexivity.
        -- match goal with |- context [OptimizerRequest ?r] => exists r end.
           exists (ev1 ++ [FootprintCost (Point.x pos) (Point.y pos) theta]).
           split; [rewrite <- app_assoc; reflexivity|].
           split.
           ++ rewrite optimizer_calls_app,
                (window_events_no_optimizer _ Hev). reflexivity.
           ++ exact Hcarrot.
Qed.

(** X11. A tick that returns a command has made exactly one request to the
    optimizer, as its last call and right after publishing the carrot of that
    request; the command is the answer to that request, and the request
    carries the velocity and pose the tick was given, the stored goal, the
    near-goal flag as this tick computed it, and the period
    [1.0 / control_frequency]. A tick that throws one of the planner's
    exceptions, or that waits for the mutex, has made no request. *)
Theorem one_command_one_request (position : PoseStamped.t)
    (speed : Twist.t) (s : NeoMpcPlanner) :
  let tick := computeVelocityCommands env position speed s in
  (forall cmd_vel,
     fst (fst tick) = Returns cmd_vel ->
     exists request before,
       snd tick =
         before ++ [PublishCarrot (createCarrotMsg (Request.carrot_pose request));
                    OptimizerRequest request] /\
       optimizer_calls (snd tick) = [request] /\
       cmd_vel = optimizer env request /\
       Request.current_vel request = speed /\
       Request.current_pose request = position /\
       Request.goal_pose request = goal_pose s /\
       Request.switch_opt request = closer_to_goal (snd (fst tick)) /\
       Request.control_interval request = 1.0 / control_frequency s) /\
  (forall e, fst (fst tick) = Throws e -> optimizer_calls (snd tick) = []) /\
  (fst (fst tick) = Blocks -> optimizer_calls (snd tick) = []).
Proof.
  intros tick. subst tick.
  destruct (mutex_ s) as [th|] eqn:Hm.
  - rewrite (computeVelocityCommands_locked env position speed s th Hm).
    split; [discriminate|]. split; reflexivity.
  - destruct (computeVelocityCommands_cases position speed s Hm)
      as [(e & s1 & ev1 & Hrun & He & Hev & ->)
         |(plan & s1 & ev1 & carrot & Hrun & Hev & _ & Htick)].
    + cbn [fst snd]. split; [discriminate|].
      split; [|discriminate]. intros _ _.
      now apply window_events_no_optimizer.
    + cbn zeta in Htick. rewrite Htick.
      pose proof (transformGlobalPlan_keeps position
                    (set_mutex_ (Some ControlThread) s)) as Hkeep.
      rewrite Hrun in Hkeep. cbn [fst snd] in Hkeep.
      destruct Hkeep as (Hgoal & _ & _ & _ & _ & Hfreq & _).
      cbn [goal_pose control_frequency set_mutex_] in Hgoal, Hfreq.
      destruct (_ =? 255); cbn [fst snd].
      * split; [discriminate|]. split; [|discriminate]. intros _ _.
        rewrite optimizer_calls_app, (window_events_no_optimizer _ Hev).
        reflexivity.
      * split; [|split; discriminate].
        intros cmd_vel Hcmd. injection Hcmd as <-.
        match goal with |- context [OptimizerRequest ?r] => exists r end.
        eexists (ev1 ++ [FootprintCost _ _ _]).
        split; [rewrite <- app_assoc; reflexivity|].
        rewrite optimizer_calls_app, (window_events_no_optimizer _ Hev).
        cbn. repeat split; [assumption|now rewrite Hfreq].
Qed.

(** X12. The regime a tick leaves is one test on the carrot it selected:
    [slow_down_] is on exactly when the absolute heading of the carrot is [>=]
    1.0 rad and the footprint cost is above 200 (so never for a NaN heading);
    the regime the tick started in plays no part in the test, and the flag is
    set so even when the tick then throws the collision exception. *)
Theorem regime_after_tick (position : PoseStamped.t) (speed : Twist.t)
    (s s1 : NeoMpcPlanner) (plan : Path.t) (ev1 : list Event) :
  mutex_ s = None ->
  transformGlobalPlan env position (set_mutex_ (Some ControlThread) s)
    = (Returns plan, s1, ev1) ->
  let pos := Pose.position (PoseStamped.pose position) in
  let theta := getYaw env (Pose.orientation (PoseStamped.pose position)) in
  let footprint_cost :=
    footprintCostAtPose env (Point.x pos) (Point.y pos) theta in
  exists carrot_pose,
    getLookAheadPoint env (getLookAheadDistance s1 speed) plan
      = Some carrot_pose /\
    slow_down_ (snd (fst (computeVelocityCommands env position speed s))) =
      Double.geb
        (abs (createYawFromQuat env
                (Pose.orientation (PoseStamped.pose carrot_pose)))) 1.0
      && Double.gtb footprint_cost 200.
Proof.
  intros Hm Hrun pos theta footprint_cost.
  destruct (computeVelocityCommands_cases position speed s Hm)
    as [(e & s1' & ev1' & Hrun' & _)
       |(plan' & s1' & ev1' & carrot & Hrun' & _ & Hcarrot & Htick)];
    rewrite Hrun in Hrun'; [discriminate|].
  injection Hrun' as <- <- <-.
  exists carrot. split; [assumption|].
  cbn zeta in Htick. rewrite Htick. fold pos theta footprint_cost.
  assert (Hflag : forall yaw, slow_down_after yaw footprint_cost =
                    Double.geb yaw 1.0 && Double.gtb footprint_cost 200).
  { intros yaw. unfold slow_down_after. destruct (yaw <? 1.0) eqn:Hy;
      [|reflexivity].
    unfold Double.geb. now rewrite (DoubleFacts.ltb_leb_false _ _ Hy). }
  destruct (footprint_cost =? 255); cbn [fst snd]; apply Hflag.
Qed.

(** X13. A tick never changes the configuration or the goal: the goal pose,
    the three lookahead distances, the control frequency, the plugin name and
    the header of the stored plan are after the tick what they were before,
    and so is the mutex, however the tick ends. *)
Theorem tick_keeps_configuration_and_goal (position : PoseStamped.t)
    (speed : Twist.t) (s : NeoMpcPlanner) :
  let s' := snd (fst (computeVelocityCommands env position speed s)) in
  goal_pose s' = goal_pose s /\
  lookahead_dist_min_ s' = lookahead_dist_min_ s /\
  lookahead_dist_max_ s' = lookahead_dist_max_ s /\
  lookahead_dist_close_to_goal_ s' = lookahead_dist_close_to_goal_ s /\
  control_frequency s' = control_frequency s /\
  plugin_name_ s' = plugin_name_ s /\
  Path.header (global_plan_ s') = Path.header (global_plan_ s) /\
  mutex_ s' = mutex_ s.
Proof.
  intros s'. subst s'.
  destruct (mutex_ s) as [th|] eqn:Hm.
  - rewrite (computeVelocityCommands_locked env position speed s th Hm).
    cbn. repeat split. assumption.
  - pose proof (transformGlobalPlan_keeps position
                  (set_mutex_ (Some ControlThread) s)) as Hkeep.
    destruct (computeVelocityCommands_cases position speed s Hm)
      as [(e & s1 & ev1 & Hrun & _ & _ & ->)
         |(plan & s1 & ev1 & carrot & Hrun & _ & _ & Htick)];
      rewrite Hrun in Hkeep; cbn [fst snd] in Hkeep;
      destruct Hkeep
        as (Hg & _ & Hmin & Hmax & Hclose & Hfreq & Hname & _ & Hhdr).
    + cbn. repeat split; assumption.
    + cbn zeta in Htick. rewrite Htick.
      destruct (_ =? 255); cbn; repeat split; assumption.
Qed.

(** X14. A tick that cannot start on the plan leaves the controller exactly
    as it was, mutex released: on an empty stored plan it throws the
    empty-plan exception having called nothing; when the robot pose cannot be
    expressed in the frame of the plan it throws the transform exception having
    made only the failed tf lookup and its error log. *)
Theorem failed_start_leaves_controller_untouched (position : PoseStamped.t)
    (speed : Twist.t) (s : NeoMpcPlanner) :
  mutex_ s = None ->
  let poses := Path.poses (global_plan_ s) in
  let frame := Header.frame_id (Path.header (global_plan_ s)) in
  (poses = [] ->
   computeVelocityCommands env position speed s
     = (Throws EmptyPlanError, s, [])) /\
  (poses <> [] -> pose_in_frame env frame position = None ->
   computeVelocityCommands env position speed s
     = (Throws TransformUnavailableError, s,
        [TfTransform position frame; LogError "Exception in transformPose"])).
Proof.
  intros Hm poses frame. subst poses frame.
  rewrite (computeVelocityCommands_unlocked env position speed s Hm).
  split.
  - intros H0.
    rewrite (computeVelocityCommands_body_throws env position speed _ _ _ _
               (transformGlobalPlan_empty env position
                  (set_mutex_ (Some ControlThread) s) H0)).
    now rewrite set_mutex_release.
  - intros Hne Hrp.
    pose proof (transformGlobalPlan_unavailable_exact position
                  (set_mutex_ (Some ControlThread) s) Hne Hrp) as Hrun.
    rewrite (computeVelocityCommands_body_throws env position speed _ _ _ _
               Hrun).
    now rewrite set_mutex_release.
Qed.

End TickStructure.

(** With cost 201 and the normal lookahead 1.0 the carrot of [plan_turning]
    is the pose at 1.2 m, heading 1.2 rad: the tick ends in the slow regime. *)
Lemma regime_after_tick_witness :
  slow_down_
    (snd (fst (computeVelocityCommands (Demo.env 201) Demo.robot Demo.speed
                 (Demo.planner plan_turning false None)))) = true.
Proof.
  destruct (regime_after_tick (Demo.env 201) Demo.robot Demo.speed
              (Demo.planner plan_turning false None)
              (trimmed (Demo.env 201)
                 (Demo.planner plan_turning false (Some ControlThread))
                 Demo.robot)
              window_turning
              (snd (transformGlobalPlan (Demo.env 201) Demo.robot
                      (Demo.planner plan_turning false (Some ControlThread))))
              eq_refl eq_refl)
    as (carrot_pose & Hcarrot & Hslow).
  rewrite Hslow. vm_compute in Hcarrot. injection Hcarrot as <-. reflexivity.
Defined.

(** A tick on a controller that holds no plan. *)
Lemma failed_start_leaves_controller_untouched_witness :
  computeVelocityCommands (Demo.env 0) Demo.robot Demo.speed
    (Demo.planner [] false None)
  = (Throws EmptyPlanError, Demo.planner [] false None, []).
Proof.
  exact (proj1 (failed_start_leaves_controller_untouched (Demo.env 0)
                  Demo.robot Demo.speed (Demo.planner [] false None) eq_refl)
           eq_refl).
Defined.

(** ** A plan across ticks *)

Section PlanAcrossTicks.

Variable env : Env.

(** What a tick does to the stored plan is what its window stage does. *)
Lemma tick_plan_suffix (position : PoseStamped.t) (speed : Twist.t)
    (s : NeoMpcPlanner) :
  let poses := Path.poses (global_plan_ s) in
  let s' := snd (fst (computeVelocityCommands env position speed s)) in
  (exists n, Path.poses (global_plan_ s') = skipn n poses) /\
  (poses <> [] ->
   Path.poses (global_plan_ s') <> [] /\
   last (Path.poses (global_plan_ s')) PoseStamped.default
     = last poses PoseStamped.default).
Proof.
  intros poses s'. subst s'.
  assert (Hsame : (exists n, poses = skipn n poses) /\
    (poses <> [] -> poses <> [] /\
       last poses PoseStamped.default = last poses PoseStamped.default))
    by (split; [exists 0%nat; reflexivity|auto]).
  destruct (mutex_ s) as [th|] eqn:Hm.
  - now rewrite (computeVelocityCommands_locked env position speed s th Hm).
  - assert (Hplan : global_plan_
              (snd (fst (computeVelocityCommands env position speed s)))
            = global_plan_
                (snd (fst (transformGlobalPlan env position
                             (set_mutex_ (Some ControlThread) s))))).
    { destruct (computeVelocityCommands_cases env position speed s Hm)
        as [(e & s1 & ev1 & Hrun & _ & _ & ->)
           |(plan & s1 & ev1 & carrot & Hrun & _ & _ & Htick)];
        rewrite Hrun; [reflexivity|].
      cbn zeta in Htick. rewrite Htick. destruct (_ =? 255); reflexivity. }
    rewrite Hplan.
    destruct (transformGlobalPlan_cases env position
                (set_mutex_ (Some ControlThread) s))
      as [(_ & ->)|[(_ & _ & ->)|(Hne & rp & _ & ->)]];
      cbn [fst snd global_plan_ set_mutex_]; try exact Hsame.
    unfold trimmed.
    cbn [global_plan_ set_global_plan_ set_mutex_ Path.poses] in *.
    fold poses in Hne |- *. set (i := closest_index env poses rp).
    assert (Hi : (i < List.length poses)%nat) by (apply min_by_bound; exact Hne).
    split; [exists i; reflexivity|]. intros _. split.
    + intros Hnil. apply (f_equal (@List.length _)) in Hnil.
      rewrite length_skipn in Hnil. cbn in Hnil. lia.
    + now apply last_skipn.
Qed.

Lemma tick_keeps_goal_pose (position : PoseStamped.t) (speed : Twist.t)
    (s : NeoMpcPlanner) :
  mutex_ s = None ->
  goal_pose (snd (fst (computeVelocityCommands env position speed s)))
    = goal_pose s.
Proof.
  intros Hm.
  pose proof (transformGlobalPlan_keeps env position
                (set_mutex_ (Some ControlThread) s)) as Hkeep.
  destruct (computeVelocityCommands_cases env position speed s Hm)
    as [(e & s1 & ev1 & Hrun & _ & _ & ->)
       |(plan & s1 & ev1 & carrot & Hrun & _ & _ & Htick)];
    rewrite Hrun in Hkeep; cbn [fst snd] in Hkeep;
    destruct Hkeep as (Hg & _); [exact Hg|].
  cbn zeta in Htick. rewrite Htick. destruct (_ =? 255); exact Hg.
Qed.

End PlanAcrossTicks.

(** X15. A plan installed by [setPlan] survives the ticks that follow, each
    with an environment, pose and speed of its own: whenever these ticks have
    all ended (returned or thrown), the stored plan is a non-empty suffix of
    the installed plan ending in the same pose, the goal is the final pose of
    the installed plan, the lookahead distances are as they were and the mutex
    is free; so a further tick, in any environment, does not throw the
    empty-plan exception. *)
Theorem installed_plan_survives_ticks (plan : Path.t) (s sn : NeoMpcPlanner)
    (inputs : list (Env * PoseStamped.t * Twist.t)) :
  Path.poses plan <> [] ->
  mutex_ s = None ->
  run_ticks inputs (snd (fst (setPlan plan s))) = Some sn ->
  let final := last (Path.poses plan) PoseStamped.default in
  (exists n, Path.poses (global_plan_ sn) = skipn n (Path.poses plan)) /\
  Path.poses (global_plan_ sn) <> [] /\
  last (Path.poses (global_plan_ sn)) PoseStamped.default = final /\
  goal_pose sn = PoseStamped.pose final /\
  lookahead_dist_min_ sn = lookahead_dist_min_ s /\
  lookahead_dist_max_ sn = lookahead_dist_max_ s /\
  lookahead_dist_close_to_goal_ sn = lookahead_dist_close_to_goal_ s /\
  mutex_ sn = None /\
  forall env position speed,
    fst (fst (computeVelocityCommands env position speed sn))
      <> Throws EmptyPlanError.
Proof.
  intros Hne Hm Hticks final. revert Hticks.
  destruct (setPlan_run plan s Hne)
    as (s0 & -> & Hplan & Hgoal & _ & _ & Hmin & Hmax & Hclose & Hmutex).
  cbn [fst snd]. fold final in Hgoal. rewrite Hm in Hmutex.
  assert (Hinv :
    (exists n, Path.poses (global_plan_ s0) = skipn n (Path.poses plan)) /\
    Path.poses (global_plan_ s0) <> [] /\
    last (Path.poses (global_plan_ s0)) PoseStamped.default = final /\
    goal_pose s0 = PoseStamped.pose final /\
    lookahead_dist_min_ s0 = lookahead_dist_min_ s /\
    lookahead_dist_max_ s0 = lookahead_dist_max_ s /\
    lookahead_dist_close_to_goal_ s0 = lookahead_dist_close_to_goal_ s /\
    mutex_ s0 = None).
  { rewrite Hplan. repeat split; try assumption. exists 0%nat. reflexivity. }
  clear Hplan Hgoal Hmin Hmax Hclose Hmutex.
  revert s0 Hinv. induction inputs as [|[[env position] speed] rest IH];
    intros s0 Hinv Hticks; cbn [run_ticks] in Hticks.
  - injection Hticks as <-.
    destruct Hinv as (Hn & Hne0 & Hlast & Hgoal & Hmin & Hmax & Hclose & Hmutex).
    repeat split; try assumption.
    intros env position speed Hthrow.
    destruct (computeVelocityCommands_cases env position speed s0 Hmutex)
      as [(e & s1 & ev1 & Hrun & _ & _ & Htick)
         |(plan' & s1 & ev1 & carrot & _ & _ & _ & Htick)].
    + rewrite Htick in Hthrow. cbn [fst] in Hthrow. injection Hthrow as ->.
      destruct (transformGlobalPlan_cases env position
                  (set_mutex_ (Some ControlThread) s0))
        as [(H0 & _)|[(_ & _ & Hrun')|(_ & rp & _ & Hrun')]].
      * apply Hne0. exact H0.
      * rewrite Hrun in Hrun'. discriminate.
      * rewrite Hrun in Hrun'.
        destruct (Path.poses (window env _ rp)); discriminate.
    + cbn zeta in Htick. rewrite Htick in Hthrow.
      destruct (_ =? 255); discriminate.
  - destruct Hinv as ((n & Hn) & Hne0 & Hlast & Hgoal & Hmin & Hmax & Hclose
                      & Hmutex).
    destruct (tick_plan_suffix env position speed s0) as ((m & Hm') & Hkeep).
    destruct (Hkeep Hne0) as (Hne1 & Hlast1).
    destruct (computeVelocityCommands_keeps_configuration env position speed
                s0 Hmutex) as (Hmutex1 & Hmin1 & Hmax1 & Hclose1).
    pose proof (tick_keeps_goal_pose env position speed s0 Hmutex) as Hg1.
    destruct (computeVelocityCommands env position speed s0)
      as [[outcome s1] ev] eqn:Htick.
    cbn [fst snd] in *.
    destruct (ended outcome); [|discriminate Hticks].
    apply (IH s1); [|exact Hticks].
    repeat split; try congruence.
    exists (m + n)%nat. rewrite Hm', Hn. apply skipn_skipn.
Qed.

(** Three ticks after installing [plan_along_x]: one that sends a request,
    one that meets the collision cost, one whose robot position is not a
    number. *)
Lemma installed_plan_survives_ticks_witness :
  match
    run_ticks
      [(Demo.env 0, Demo.robot, Demo.speed);
       (Demo.env 255, Demo.robot, Demo.speed);
       (Demo.env 201, robot_nan, Demo.speed)]
      (snd (fst (setPlan (Path.mk (Header.mk 0%Z "map") plan_along_x)
                   (Demo.planner [] false None))))
  with
  | Some sn =>
      Path.poses (global_plan_ sn) <> [] /\
      goal_pose sn = PoseStamped.pose (Demo.G 2 0)
  | None => False
  end.
Proof.
  destruct (run_ticks _ _) as [sn|] eqn:Hticks.
  - destruct (installed_plan_survives_ticks
                (Path.mk (Header.mk 0%Z "map") plan_along_x)
                (Demo.planner [] false None) sn _
                ltac:(discriminate) eq_refl Hticks)
      as (_ & Hne & _ & Hgoal & _).
    split; [exact Hne|exact Hgoal].
  - vm_compute in Hticks. discriminate Hticks.
Defined.

(** ** More on [setPlan] and on the reconfiguration callback *)

Section SetPlanAgain.

Lemma eqb_nan_right (a b : float) : (b =? b) = false -> (a =? b) = false.
Proof.
  intros H. assert (Hn : is_nan b = true) by (unfold is_nan; now rewrite H).
  apply DoubleFacts.is_nan_true in Hn.
  rewrite eqb_spec. unfold SFeqb. rewrite Hn.
  destruct (Prim2SF a); reflexivity.
Qed.

Ltac nan_field :=
  match goal with
  | |- context [(?f ?b =? ?f ?b)] =>
      destruct (f b =? f b) eqn:?;
      [ | match goal with
          | H : (f b =? f b) = false |- context [(?x =? f b)] =>
              rewrite (eqb_nan_right x (f b) H)
          end ]
  end.

(** A pose that differs from itself (one of its fields is NaN) differs from
    every pose. *)
Lemma Pose_eqb_nan (a b : Pose.t) :
  Pose.eqb b b = false -> Pose.eqb a b = false.
Proof.
  unfold Pose.eqb, Point.eqb, Quaternion.eqb.
  repeat nan_field; cbn [andb]; intros H; try discriminate H;
    rewrite ?andb_false_r; reflexivity.
Qed.

Lemma setPlan_exact (plan : Path.t) (s : NeoMpcPlanner) :
  Path.poses plan <> [] ->
  let final :=
    PoseStamped.pose (last (Path.poses plan) PoseStamped.default) in
  setPlan plan s =
    (Returns tt,
     set_goal_pose final
       (if Pose.eqb (goal_pose s) final
        then set_global_plan_ plan s
        else set_slow_down_ true (set_global_plan_ plan s)), []).
Proof.
  intros Hne final. unfold setPlan, bind, modify, get.
  rewrite (back_last (Path.poses plan)). fold final.
  destruct (Path.poses plan) as [|p0 rest] eqn:Hp; [congruence|].
  cbn [goal_pose set_global_plan_].
  destruct (Pose.eqb (goal_pose s) final); reflexivity.
Qed.

(** X16. Installing the same plan again changes nothing, provided its final
    pose has no NaN field: the second [setPlan] returns leaving the
    controller, regime included, exactly as the first left it. *)
Theorem setPlan_again_changes_nothing (plan : Path.t) (s : NeoMpcPlanner) :
  Path.poses plan <> [] ->
  let final :=
    PoseStamped.pose (last (Path.poses plan) PoseStamped.default) in
  Pose.eqb final final = true ->
  let s1 := snd (fst (setPlan plan s)) in
  setPlan plan s1 = (Returns tt, s1, []).
Proof.
  intros Hne final Hfinal s1. subst s1.
  rewrite (setPlan_exact plan s Hne). cbn [fst snd]. fold final.
  rewrite (setPlan_exact plan _ Hne). fold final.
  cbn [goal_pose set_goal_pose]. rewrite Hfinal.
  destruct (Pose.eqb (goal_pose s) final); destruct s; reflexivity.
Qed.

(** X17. A plan whose final pose has a NaN field always forces the slow
    regime: its final pose differs from every stored goal, itself included,
    so every [setPlan] with it turns [slow_down_] on. *)
Theorem setPlan_with_nan_goal_forces_slow (plan : Path.t) (s : NeoMpcPlanner) :
  Path.poses plan <> [] ->
  let final :=
    PoseStamped.pose (last (Path.poses plan) PoseStamped.default) in
  Pose.eqb final final = false ->
  slow_down_ (snd (fst (setPlan plan s))) = true /\
  slow_down_ (snd (fst (setPlan plan (snd (fst (setPlan plan s)))))) = true.
Proof.
  intros Hne final Hnan.
  assert (Hforce : forall st, slow_down_ (snd (fst (setPlan plan st))) = true).
  { intros st. destruct (setPlan_run plan st Hne)
      as (s' & -> & _ & _ & Hslow & _).
    cbn [fst snd]. rewrite Hslow. fold final.
    now rewrite (Pose_eqb_nan (goal_pose st) final Hnan). }
  split; apply Hforce.
Qed.

End SetPlanAgain.

(** [plan_along_x] installed twice. *)
Lemma setPlan_again_changes_nothing_witness :
  let plan := Path.mk (Header.mk 0%Z "map") plan_along_x in
  let s1 := snd (fst (setPlan plan (Demo.planner [] false None))) in
  setPlan plan s1 = (Returns tt, s1, []).
Proof.
  exact (setPlan_again_changes_nothing
           (Path.mk (Header.mk 0%Z "map") plan_along_x)
           (Demo.planner [] false None) ltac:(discriminate) eq_refl).
Defined.

(** A plan ending in a pose whose x is NaN, installed over itself. *)
Lemma setPlan_with_nan_goal_forces_slow_witness :
  let plan := Path.mk (Header.mk 0%Z "map") [Demo.G 0 0; Demo.G nan 0] in
  slow_down_
    (snd (fst (setPlan plan
                 (snd (fst (setPlan plan (Demo.planner [] false None)))))))
    = true.
Proof.
  exact (proj2 (setPlan_with_nan_goal_forces_slow
                  (Path.mk (Header.mk 0%Z "map") [Demo.G 0 0; Demo.G nan 0])
                  (Demo.planner [] false None) ltac:(discriminate) eq_refl)).
Defined.

Section CallbackContract.

(** X18. The reconfiguration callback, for every batch and every state: it
    leaves every member of the controller as it found it; with the mutex held
    it waits; with the mutex free it returns at once, reporting success (and
    logging nothing) when every parameter name contains ['.'], and otherwise
    failing with the controller-is-running reason and one warning -- even
    though no tick is running, and whatever the types and values are. *)
Theorem dynamicParametersCallback_contract
    (parameters : list RclParameter.t) (s : NeoMpcPlanner) :
  let call := dynamicParametersCallback parameters s in
  snd (fst call) = s /\
  (mutex_ s <> None -> fst (fst call) = Blocks /\ snd call = []) /\
  (mutex_ s = None ->
   fst (fst call) =
     Returns (if forallb namespaced parameters
              then SetParametersResult.mk true EmptyString
              else SetParametersResult.mk false busy_message) /\
   snd call =
     if forallb namespaced parameters then [] else [LogWarn busy_message]).
Proof.
  intros call. subst call. destruct (mutex_ s) as [th|] eqn:Hm.
  - rewrite (dynamicParametersCallback_blocks parameters s th Hm).
    cbn. repeat split; congruence.
  - rewrite (dynamicParametersCallback_run parameters s Hm).
    destruct (forallb namespaced parameters); cbn; repeat split; congruence.
Qed.

End CallbackContract.

(** The batch of the three declared parameters of "FollowPath". *)
Lemma declared_batch_is_skipped_witness :
  dynamicParametersCallback declared_batch
    (Demo.planner plan_along_x false None)
  = (Returns (SetParametersResult.mk true EmptyString),
     Demo.planner plan_along_x false None, []).
Proof.
  apply (declared_batch_is_skipped declared_batch
           (Demo.planner plan_along_x false None) eq_refl).
  apply Forall_cons; [|apply Forall_cons; [|apply Forall_cons;
    [|apply Forall_nil]]]; vm_compute; auto.
Defined.

(** ** The lookahead a tick uses *)

Section TickLookahead.

Variable env : Env.

(** X20. The carrot a tick sends to the optimizer is selected from the
    window of this tick at a distance fixed by the near-goal flag as this
    tick computed it and by the regime the previous tick left: the
    close-to-goal distance when near the goal, otherwise the min distance
    when the controller entered the tick slowed, otherwise the max distance.
    The regime this tick sets only takes effect in the next tick. *)
Theorem tick_selects_carrot_at_previous_regime (position : PoseStamped.t)
    (speed : Twist.t) (s : NeoMpcPlanner) (cmd_vel : TwistStamped.t) :
  let tick := computeVelocityCommands env position speed s in
  fst (fst tick) = Returns cmd_vel ->
  let lookahead_dist :=
    if closer_to_goal (snd (fst tick)) then lookahead_dist_close_to_goal_ s
    else if slow_down_ s then lookahead_dist_min_ s
    else lookahead_dist_max_ s in
  exists request transformed_plan,
    optimizer_calls (snd tick) = [request] /\
    fst (fst (transformGlobalPlan env position
                (set_mutex_ (Some ControlThread) s)))
      = Returns transformed_plan /\
    getLookAheadPoint env lookahead_dist transformed_plan
      = Some (Request.carrot_pose request).
Proof.
  intros tick Hret lookahead_dist. subst tick lookahead_dist.
  destruct (mutex_ s) as [th|] eqn:Hm.
  - rewrite (computeVelocityCommands_locked env position speed s th Hm) in Hret.
    discriminate.
  - pose proof (transformGlobalPlan_keeps env position
                  (set_mutex_ (Some ControlThread) s)) as Hkeep.
    destruct (computeVelocityCommands_cases env position speed s Hm)
      as [(e & s1 & ev1 & Hrun & _ & _ & Htick)
         |(plan & s1 & ev1 & carrot & Hrun & Hev & Hcarrot & Htick)].
    + rewrite Htick in Hret. discriminate.
    + rewrite Hrun in Hkeep. cbn [fst snd] in Hkeep.
      destruct Hkeep as (_ & Hslow & Hmin & Hmax & Hclose & _).
      cbn [slow_down_ lookahead_dist_min_ lookahead_dist_max_
           lookahead_dist_close_to_goal_ set_mutex_] in Hslow, Hmin, Hmax, Hclose.
      cbn zeta in Htick. rewrite Htick in Hret |- *. rewrite Hrun.
      destruct (_ =? 255); [discriminate|]. cbn [fst snd].
      match goal with |- context [OptimizerRequest ?r] => exists r end.
      exists plan. split.
      * rewrite optimizer_calls_app, (window_events_no_optimizer _ Hev).
        reflexivity.
      * split; [reflexivity|]. cbn [Request.carrot_pose closer_to_goal
          set_mutex_ set_slow_down_].
        rewrite <- Hcarrot. f_equal. unfold getLookAheadDistance.
        rewrite Hslow, Hmin, Hmax, Hclose.
        destruct (closer_to_goal s1), (slow_down_ s); reflexivity.
Qed.

(** X21. A lookahead distance that is NaN selects the last pose of the path:
    no pose is at least NaN away. *)
Theorem nan_lookahead_selects_last_pose (d : float) (plan : Path.t) :
  Path.poses plan <> [] ->
  is_nan d = true ->
  getLookAheadPoint env d plan
    = Some (last (Path.poses plan) PoseStamped.default).
Proof.
  intros Hne Hnan. apply getLookAheadPoint_last; [assumption|].
  apply Forall_forall. intros q _. unfold far_enough, Double.geb.
  exact (proj1 (proj2 (proj2 (DoubleFacts.nan_compares_false d _ Hnan)))).
Qed.

End TickLookahead.

(** A tick on [plan_turning] entered slowed: the carrot is selected at the
    min distance 0.5, the pose at 0.6 m. *)
Lemma tick_selects_carrot_at_previous_regime_witness :
  exists request,
    optimizer_calls
      (snd (computeVelocityCommands (Demo.env 0) Demo.robot Demo.speed
              (Demo.planner plan_turning true None))) = [request] /\
    getLookAheadPoint (Demo.env 0) 0.5 window_turning
      = Some (Request.carrot_pose request).
Proof.
  destruct (tick_selects_carrot_at_previous_regime (Demo.env 0) Demo.robot
              Demo.speed (Demo.planner plan_turning true None)
              (optimizer (Demo.env 0)
                 (Request.mk Demo.speed
                    (PoseStamped.mk (Header.mk 7%Z "base_link")
                       (PoseStamped.pose (Demo.pose_at "map" 0.6 0 Demo.q_half)))
                    (PoseStamped.pose (Demo.pose_at "map" 1.2 0 Demo.q_steep))
                    Demo.robot false (1.0 / 20)))
              eq_refl)
    as (request & plan & Hcalls & Hplan & Hcarrot).
  exists request. split; [exact Hcalls|].
  vm_compute in Hplan. injection Hplan as <-. exact Hcarrot.
Defined.

(** Scenario A with a lookahead that is not a number. *)
Lemma nan_lookahead_selects_last_pose_witness :
  getLookAheadPoint (Demo.env 0) nan (Demo.path [Demo.P0; Demo.P1; Demo.P2])
    = Some Demo.P2.
Proof.
  exact (nan_lookahead_selects_last_pose (Demo.env 0) nan
           (Demo.path [Demo.P0; Demo.P1; Demo.P2]) ltac:(discriminate) eq_refl).
Defined.
